(** * acme_plot.plot: [plot_column]

    A shallow embedding of [src/acme_plot/plot.py] and the properties of its
    layout choice, grid geometry, per-symbol series and error paths.

    The function draws through two ambient collaborators: the process-wide
    [matplotlib.pyplot] state (figures, their axes, the current figure) and a
    [logging] logger.  Both are modelled as one explicit store, [PltState],
    threaded through a state-and-exception monad in which an exception keeps
    the mutations made before it, as in Python.  Whether matplotlib takes a
    line it is asked to draw is decided inside matplotlib: that decision is a
    parameter of the embedding, [Backend]. *)

From Stdlib Require Import ZArith List String Ascii Bool Arith Lia.
From Stdlib Require Import DecimalString.
Import ListNotations.

Local Open Scope string_scope.
Local Open Scope list_scope.
Local Open Scope Z_scope.

(** ** Cell values *)

(** A cell of the DataFrame: a string (symbols, dates) or an integer.
    Floating-point cells are outside the model. *)
Inductive Value : Type :=
| VStr (s : string)
| VInt (z : Z).

(** Python [==] on cells. *)
Definition value_eqb (a b : Value) : bool :=
  match a, b with
  | VStr s, VStr t => String.eqb s t
  | VInt x, VInt y => Z.eqb x y
  | _, _ => false
  end.

(** [str(n)] for an integer. *)
Definition str_of_Z (z : Z) : string := NilZero.string_of_int (Z.to_int z).

(** [f'{symbol}']. *)
Definition format_value (v : Value) : string :=
  match v with
  | VStr s => s
  | VInt z => str_of_Z z
  end.

(** Python's [in] on a sequence. *)
Definition contains (v : Value) (l : list Value) : bool := existsb (value_eqb v) l.

(** ** DataFrame *)

(** A DataFrame as pandas stores it: named columns of cells.  pandas keeps all
    columns at the same length ([well_formed]); column names are taken to be
    distinct, so that [df[name]] is one column. *)
Definition DataFrame : Type := list (string * list Value).

(** [df.columns]. *)
Definition columns (df : DataFrame) : list string := map fst df.

(** [name in df.columns]. *)
Definition has_column (name : string) (df : DataFrame) : bool :=
  existsb (String.eqb name) (columns df).

(** [df[name]], [None] standing for pandas' [KeyError]. *)
Fixpoint getitem (df : DataFrame) (name : string) : option (list Value) :=
  match df with
  | [] => None
  | (n, col) :: rest => if String.eqb name n then Some col else getitem rest name
  end.

(** Row selection by a boolean mask. *)
Fixpoint select (mask : list bool) (col : list Value) : list Value :=
  match mask, col with
  | b :: mask', x :: col' => if b then x :: select mask' col' else select mask' col'
  | _, _ => []
  end.

(** [df.query(f"{name} == @v")]: the rows whose cell in column [name] equals
    [v]; every column is kept.  The column name is taken to be one the query
    grammar reads as a single identifier.  [None] when there is no such
    column. *)
Definition query_eq (df : DataFrame) (name : string) (v : Value) : option DataFrame :=
  match getitem df name with
  | None => None
  | Some col =>
      let mask := map (fun cell => value_eqb cell v) col in
      Some (map (fun c => (fst c, select mask (snd c))) df)
  end.

(** [Series.unique()]: a hash-table scan that keeps each value the first time
    it is met; [seen] is the table. *)
Fixpoint unique_from (seen : list Value) (col : list Value) : list Value :=
  match col with
  | [] => []
  | x :: col' =>
      if contains x seen then unique_from seen col'
      else x :: unique_from (x :: seen) col'
  end.

Definition unique (col : list Value) : list Value := unique_from [] col.

(** Length as a Python [int]. *)
Definition len {A : Type} (l : list A) : Z := Z.of_nat (List.length l).

(** The pandas invariant on a frame: all columns have [n] rows. *)
Definition well_formed (df : DataFrame) (n : nat) : Prop :=
  Forall (fun c => List.length (snd c) = n) df.

(** ** The drawing store *)

Definition Kwargs : Type := list (string * Value).

(** A [Line2D] on an axes. *)
Record Line : Type := mkLine {
  line_x : list Value;
  line_y : list Value;
  line_label : option Value;
  line_kwargs : Kwargs
}.

(** An [Axes]: a panel.  [ax_geometry] is its place [(nrows, ncols, index)]
    in the figure's grid. *)
Record Axes : Type := mkAxes {
  ax_geometry : Z * Z * nat;
  ax_lines : list Line;
  ax_title : option (string * Z);
  ax_xlabel : option (string * Z);
  ax_ylabel : option (string * Z);
  ax_grid : bool;
  ax_xtick_rotation : option Z;
  ax_legend : option ((Z * Z) * string);
  ax_visible : bool
}.

Inductive FigSize : Type :=
| DefaultSize
| Inches (w h : Z).

Record Figure : Type := mkFigure {
  fig_size : FigSize;
  fig_axes : list Axes;
  fig_suptitle : option string;
  fig_tight : bool
}.

(** The ambient state: pyplot's figures, oldest first (the current figure is
    the last one), and the records the module's logger has received. *)
Record PltState : Type := mkState {
  figures : list Figure;
  warnings : list string
}.

Definition empty_state : PltState := mkState [] [].

(** A fresh axes as [add_subplot] makes it. *)
Definition new_axes (nrows ncols : Z) (k : nat) : Axes :=
  mkAxes (nrows, ncols, k) [] None None None false None None true.

Definition new_figure (size : FigSize) (axs : list Axes) : Figure :=
  mkFigure size axs None false.

(** ** Exceptions and the monad *)

Inductive Exn : Type :=
| ValueError (msg : string)
| KeyError (key : string)
| ZeroDivisionError
| UnboundLocalError (var : string)
| IndexError
| TypeError (msg : string)
| AttributeError (attr : string).

(** A computation reads and writes the store and ends in a value or an
    exception; the store survives the exception. *)
Definition M (A : Type) : Type := PltState -> (Exn + A) * PltState.

Definition ret {A : Type} (a : A) : M A := fun s => (inr a, s).

Definition raise {A : Type} (e : Exn) : M A := fun s => (inl e, s).

Definition bind {A B : Type} (m : M A) (k : A -> M B) : M B :=
  fun s =>
    match m s with
    | (inl e, s') => (inl e, s')
    | (inr a, s') => k a s'
    end.

Definition get_state : M PltState := fun s => (inr s, s).

Declare Scope plt_scope.
Delimit Scope plt_scope with plt.
Notation "x <- m ;; k" := (bind m (fun x => k))
  (at level 61, m at next level, right associativity) : plt_scope.
Notation "m ;; k" := (bind m (fun _ => k))
  (at level 61, right associativity) : plt_scope.
Local Open Scope plt_scope.

(** An [option] lifted into [M]: [None] raises [e]. *)
Definition or_raise {A : Type} (o : option A) (e : Exn) : M A :=
  match o with
  | Some a => ret a
  | None => raise e
  end.

(** ** Python operators used by the function *)

(** [a // b]. *)
Definition floordiv (a b : Z) : M Z :=
  if b =? 0 then raise ZeroDivisionError else ret (a / b).

(** [range(lo, hi)]. *)
Definition range (lo hi : nat) : list nat := seq lo (hi - lo).

(** [for x in l: body(x)]. *)
Fixpoint for_each {A : Type} (l : list A) (body : A -> M unit) : M unit :=
  match l with
  | [] => ret tt
  | x :: l' => body x ;; for_each l' body
  end.

(** [for i, x in enumerate(l): body(i, x)], counting from [k].  The loop
    variable [i] outlives the loop: the result is its last binding, and
    [last] (its binding before the loop, [None] for unbound) when the loop
    body never ran. *)
Fixpoint for_enumerate {A : Type} (body : nat -> A -> M unit) (k : nat)
    (l : list A) (last : option nat) : M (option nat) :=
  match l with
  | [] => ret last
  | x :: l' => body k x ;; for_enumerate body (S k) l' (Some k)
  end.

(** [key in kwargs]. *)
Definition has_key (key : string) (kw : Kwargs) : bool :=
  existsb (fun p => String.eqb key (fst p)) kw.

(** [f(..., label=..., **kwargs)] with ["label"] in [kwargs] too: Python
    refuses the call with this [TypeError]. *)
Definition duplicate_label_message : string :=
  "plot() got multiple values for keyword argument 'label'".

(** ** logging *)

(** [logger.warning(msg)]. *)
Definition logger_warning (msg : string) : M unit :=
  fun s => (inr tt, mkState (figures s) (warnings s ++ [msg])).

(** ** matplotlib *)

(** An axes object is known by its figure's place in pyplot's list and its
    own place in the figure: the objects are shared, and every holder of a
    reference sees the same mutations. *)
Definition AxRef : Type := nat * nat.

(** What [plt.subplots] hands back with [squeeze=True]: one axes for a 1x1
    grid, an array of axes otherwise. *)
Inductive AxesObj : Type :=
| OneAxes (r : AxRef)
| AxesArray (rs : list AxRef).

Fixpoint update_nth {A : Type} (n : nat) (f : A -> A) (l : list A) : list A :=
  match l, n with
  | [], _ => []
  | x :: l', O => f x :: l'
  | x :: l', S n' => x :: update_nth n' f l'
  end.

Definition set_fig_axes (f : list Axes -> list Axes) (fig : Figure) : Figure :=
  mkFigure (fig_size fig) (f (fig_axes fig)) (fig_suptitle fig) (fig_tight fig).

(** Mutation of the axes object behind a reference.  References are handed
    out by [plt.subplots] and [plt.gca] only, so they always resolve. *)
Definition modify_axes (r : AxRef) (f : Axes -> Axes) : M unit :=
  fun s =>
    (inr tt,
     mkState (update_nth (fst r) (set_fig_axes (update_nth (snd r) f)) (figures s))
             (warnings s)).

Definition modify_figure (n : nat) (f : Figure -> Figure) : M unit :=
  fun s => (inr tt, mkState (update_nth n f (figures s)) (warnings s)).

Definition add_line (l : Line) (a : Axes) : Axes :=
  mkAxes (ax_geometry a) (ax_lines a ++ [l]) (ax_title a) (ax_xlabel a) (ax_ylabel a)
         (ax_grid a) (ax_xtick_rotation a) (ax_legend a) (ax_visible a).

Definition with_title (t : string) (pad : Z) (a : Axes) : Axes :=
  mkAxes (ax_geometry a) (ax_lines a) (Some (t, pad)) (ax_xlabel a) (ax_ylabel a)
         (ax_grid a) (ax_xtick_rotation a) (ax_legend a) (ax_visible a).

Definition with_xlabel (t : string) (pad : Z) (a : Axes) : Axes :=
  mkAxes (ax_geometry a) (ax_lines a) (ax_title a) (Some (t, pad)) (ax_ylabel a)
         (ax_grid a) (ax_xtick_rotation a) (ax_legend a) (ax_visible a).

Definition with_ylabel (t : string) (pad : Z) (a : Axes) : Axes :=
  mkAxes (ax_geometry a) (ax_lines a) (ax_title a) (ax_xlabel a) (Some (t, pad))
         (ax_grid a) (ax_xtick_rotation a) (ax_legend a) (ax_visible a).

Definition with_grid (b : bool) (a : Axes) : Axes :=
  mkAxes (ax_geometry a) (ax_lines a) (ax_title a) (ax_xlabel a) (ax_ylabel a)
         b (ax_xtick_rotation a) (ax_legend a) (ax_visible a).

Definition with_xtick_rotation (deg : Z) (a : Axes) : Axes :=
  mkAxes (ax_geometry a) (ax_lines a) (ax_title a) (ax_xlabel a) (ax_ylabel a)
         (ax_grid a) (Some deg) (ax_legend a) (ax_visible a).

Definition with_legend (anchor : Z * Z) (loc : string) (a : Axes) : Axes :=
  mkAxes (ax_geometry a) (ax_lines a) (ax_title a) (ax_xlabel a) (ax_ylabel a)
         (ax_grid a) (ax_xtick_rotation a) (Some (anchor, loc)) (ax_visible a).

Definition with_visible (b : bool) (a : Axes) : Axes :=
  mkAxes (ax_geometry a) (ax_lines a) (ax_title a) (ax_xlabel a) (ax_ylabel a)
         (ax_grid a) (ax_xtick_rotation a) (ax_legend a) b.

(** *** What matplotlib makes of a line *)

(** [Axes.plot] builds the line from the data and the keyword options before
    it adds it, and raises, adding nothing, when it cannot: [AttributeError]
    for a keyword that names no line property, [ValueError] or [TypeError]
    for cells it cannot convert on the axes as it stands.  Which lines pass
    is matplotlib's own business and no part of this repository; it is taken
    as a parameter: for the axes as it stands and the line about to be
    added, the exception raised, or [None] when the line is taken. *)
Definition Backend : Type := Axes -> Line -> option Exn.

(** A backend that takes every line. *)
Definition accept_all : Backend := fun _ _ => None.

(** A backend that refuses the draw option [key], the way matplotlib refuses
    a keyword that names no line property, and takes every other line. *)
Definition refuses (key : string) : Backend :=
  fun _ ln =>
    if has_key key (line_kwargs ln) then Some (AttributeError key) else None.

(** The axes object behind a reference, as it stands. *)
Definition read_axes (r : AxRef) : M Axes :=
  fun s =>
    match nth_error (figures s) (fst r) with
    | None => (inl IndexError, s)
    | Some fig =>
        match nth_error (fig_axes fig) (snd r) with
        | None => (inl IndexError, s)
        | Some a => (inr a, s)
        end
    end.

(** *** Methods of an axes object *)

Module Ax.

(** The core of [ax.plot]: the line is added if the backend takes it. *)
Definition draw (mpl : Backend) (r : AxRef) (ln : Line) : M unit :=
  a <- read_axes r ;;
  match mpl a ln with
  | Some e => raise e
  | None => modify_axes r (add_line ln)
  end.

(** [ax.plot(x, y, **kwargs)]. *)
Definition plot (mpl : Backend) (r : AxRef) (x y : list Value) (kw : Kwargs)
    : M unit :=
  draw mpl r (mkLine x y None kw).

(** [ax.set_title(t, pad=pad)]. *)
Definition set_title (r : AxRef) (t : string) (pad : Z) : M unit :=
  modify_axes r (with_title t pad).

(** [ax.set_xlabel(t, labelpad=pad)]. *)
Definition set_xlabel (r : AxRef) (t : string) (pad : Z) : M unit :=
  modify_axes r (with_xlabel t pad).

(** [ax.set_ylabel(t, labelpad=pad)]. *)
Definition set_ylabel (r : AxRef) (t : string) (pad : Z) : M unit :=
  modify_axes r (with_ylabel t pad).

(** [ax.grid(b)]. *)
Definition grid (r : AxRef) (b : bool) : M unit :=
  modify_axes r (with_grid b).

(** [ax.tick_params(axis='x', rotation=deg)]. *)
Definition tick_params_x (r : AxRef) (deg : Z) : M unit :=
  modify_axes r (with_xtick_rotation deg).

(** [ax.set_visible(b)]. *)
Definition set_visible (r : AxRef) (b : bool) : M unit :=
  modify_axes r (with_visible b).

End Ax.

(** [obj.plot], [obj.set_title], ...: only an axes has these attributes. *)
Definition as_axes (o : AxesObj) (attr : string) : M AxRef :=
  match o with
  | OneAxes r => ret r
  | AxesArray _ => raise (AttributeError attr)
  end.

(** [arr.flatten()]: only an array has it; the cells come out row by row. *)
Definition flatten (o : AxesObj) : M (list AxesObj) :=
  match o with
  | AxesArray rs => ret (map OneAxes rs)
  | OneAxes _ => raise (AttributeError "flatten")
  end.

(** [l[i]] on a list or a flat array. *)
Definition index {A : Type} (l : list A) (i : nat) : M A :=
  or_raise (nth_error l i) IndexError.

(** *** pyplot's module-level interface *)

Module Plt.

(** [plt.figure(figsize=size)]: a new, empty figure, made current. *)
Definition figure (size : FigSize) : M unit :=
  fun s => (inr tt, mkState (figures s ++ [new_figure size []]) (warnings s)).

(** [plt.subplots(nrows, ncols, figsize=size)]: a new current figure with
    an [nrows] by [ncols] grid of axes. *)
Definition subplots (nrows ncols : Z) (size : FigSize) : M AxesObj :=
  if (nrows <=? 0) || (ncols <=? 0)
  then raise (ValueError "Number of rows and columns must be positive integers")
  else
    fun s =>
      let n := List.length (figures s) in
      let cells := seq 0 (Z.to_nat (nrows * ncols)) in
      let fig := new_figure size (map (new_axes nrows ncols) cells) in
      let obj := if (nrows =? 1) && (ncols =? 1) then OneAxes (n, 0%nat)
                 else AxesArray (map (fun k => (n, k)) cells) in
      (inr obj, mkState (figures s ++ [fig]) (warnings s)).

(** [plt.gcf()]: the current figure, made if there is none. *)
Definition gcf : M nat :=
  fun s =>
    match figures s with
    | [] => (inr 0%nat, mkState [new_figure DefaultSize []] (warnings s))
    | _ :: _ => (inr (List.length (figures s) - 1)%nat, s)
    end.

(** [plt.gca()]: the current axes of the current figure, made by
    [add_subplot(111)] if the figure has none. *)
Definition gca : M AxRef :=
  n <- gcf ;;
  s <- get_state ;;
  match nth_error (figures s) n with
  | None => raise IndexError
  | Some fig =>
      match fig_axes fig with
      | [] =>
          modify_figure n (set_fig_axes (fun _ => [new_axes 1 1 0])) ;;
          ret (n, 0%nat)
      | _ :: _ => ret (n, (List.length (fig_axes fig) - 1)%nat)
      end
  end.

(** [plt.plot(x, y, label=label, **kwargs)]: Python refuses the call when
    [kwargs] repeats [label]; otherwise it is [gca().plot(...)]. *)
Definition plot (mpl : Backend) (x y : list Value) (label : Value) (kw : Kwargs)
    : M unit :=
  if has_key "label" kw
  then raise (TypeError duplicate_label_message)
  else
    r <- gca ;;
    Ax.draw mpl r (mkLine x y (Some label) kw).

(** [plt.title(t, pad=pad)]. *)
Definition title (t : string) (pad : Z) : M unit :=
  r <- gca ;; Ax.set_title r t pad.

(** [plt.xlabel(t, labelpad=pad)]. *)
Definition xlabel (t : string) (pad : Z) : M unit :=
  r <- gca ;; Ax.set_xlabel r t pad.

(** [plt.ylabel(t, labelpad=pad)]. *)
Definition ylabel (t : string) (pad : Z) : M unit :=
  r <- gca ;; Ax.set_ylabel r t pad.

(** [plt.grid(b)]. *)
Definition grid (b : bool) : M unit :=
  r <- gca ;; Ax.grid r b.

(** [plt.legend(bbox_to_anchor=anchor, loc=loc)]; the anchor is kept in
    hundredths of the axes' width and height. *)
Definition legend (anchor : Z * Z) (loc : string) : M unit :=
  r <- gca ;; modify_axes r (with_legend anchor loc).

(** [plt.xticks(rotation=deg)]. *)
Definition xticks (deg : Z) : M unit :=
  r <- gca ;; Ax.tick_params_x r deg.

(** [plt.suptitle(t)]. *)
Definition suptitle (t : string) : M unit :=
  n <- gcf ;;
  modify_figure n (fun fig =>
    mkFigure (fig_size fig) (fig_axes fig) (Some t) (fig_tight fig)).

(** [plt.tight_layout()]. *)
Definition tight_layout : M unit :=
  n <- gcf ;;
  modify_figure n (fun fig =>
    mkFigure (fig_size fig) (fig_axes fig) (fig_suptitle fig) true).

End Plt.

(** ** plot_column *)

Definition missing_columns_message : string :=
  "DataFrame must have 'datetime' and 'symbol' columns".

Definition warning_message (n : Z) : string :=
  ("Large number of symbols (" ++ str_of_Z n
    ++ "). Switching to subplot view for better visibility.")%string.

Definition chart_title (column_name : string) : string :=
  ("`" ++ column_name ++ "` Over Time by Symbol")%string.

(** Lines 37-38: [if plot_kwargs is None: plot_kwargs = {}]. *)
Definition kwargs_or_empty (plot_kwargs : option Kwargs) : Kwargs :=
  match plot_kwargs with
  | None => []
  | Some kw => kw
  end.

(** [axes[i]] followed by a method lookup on it. *)
Definition axes_at (axes : list AxesObj) (i : nat) (attr : string) : M AxRef :=
  o <- index axes i ;; as_axes o attr.

(** [df.query(f"{symbol_column} == @symbol")]. *)
Definition symbol_rows (df : DataFrame) (symbol_column : string) (symbol : Value)
    : M DataFrame :=
  or_raise (query_eq df symbol_column symbol) (KeyError symbol_column).

(** [frame[name]]. *)
Definition column_of (frame : DataFrame) (name : string) : M (list Value) :=
  or_raise (getitem frame name) (KeyError name).

(** Lines 52-63: the body of the grid loop. *)
Definition grid_body (mpl : Backend) (df : DataFrame) (column_name : string)
    (plot_kwargs : Kwargs)
    (symbol_column datetime_column : string) (axes : list AxesObj)
    (i : nat) (symbol : Value) : M unit :=
  symbol_data <- symbol_rows df symbol_column symbol ;;
  ax <- axes_at axes i "plot" ;;
  x <- column_of symbol_data datetime_column ;;
  y <- column_of symbol_data column_name ;;
  Ax.plot mpl ax x y plot_kwargs ;;
  ax <- axes_at axes i "set_title" ;;
  Ax.set_title ax (format_value symbol) 15 ;;
  ax <- axes_at axes i "set_xlabel" ;;
  Ax.set_xlabel ax "Date" 10 ;;
  ax <- axes_at axes i "set_ylabel" ;;
  Ax.set_ylabel ax column_name 10 ;;
  ax <- axes_at axes i "grid" ;;
  Ax.grid ax true ;;
  ax <- axes_at axes i "tick_params" ;;
  Ax.tick_params_x ax 45.

(** Line 66: [range(i+1, len(axes))], with [i] as the grid loop left it. *)
Definition unused_slots (axes : list AxesObj) (i : nat) : list nat :=
  range (i + 1) (List.length axes).

(** Lines 66-67: [for j in range(i+1, len(axes)): axes[j].set_visible(False)]. *)
Definition hide_unused (axes : list AxesObj) (i : nat) : M unit :=
  for_each (unused_slots axes i) (fun j =>
    ax <- axes_at axes j "set_visible" ;;
    Ax.set_visible ax false).

(** Lines 42-72: the branch taken when there are more symbols than the
    threshold. *)
Definition grid_layout (mpl : Backend) (df : DataFrame) (column_name : string)
    (plot_kwargs : Kwargs)
    (symbol_column datetime_column : string) (symbols : list Value) : M unit :=
  logger_warning (warning_message (len symbols)) ;;
  let n_symbols := len symbols in
  let n_cols := Z.min 3 n_symbols in
  n_rows <- floordiv (n_symbols + n_cols - 1) n_cols ;;
  obj <- Plt.subplots n_rows n_cols (Inches 15 (5 * n_rows)) ;;
  axes <- (if n_symbols >? 1 then flatten obj else ret [obj]) ;;
  i <- for_enumerate
         (grid_body mpl df column_name plot_kwargs symbol_column datetime_column axes)
         0 symbols None ;;
  i <- or_raise i (UnboundLocalError "i") ;;
  hide_unused axes i ;;
  Plt.suptitle (chart_title column_name) ;;
  Plt.tight_layout.

(** Lines 78-82: the body of the combined loop. *)
Definition combined_body (mpl : Backend) (df : DataFrame) (column_name : string)
    (plot_kwargs : Kwargs)
    (symbol_column datetime_column : string) (symbol : Value) : M unit :=
  symbol_data <- symbol_rows df symbol_column symbol ;;
  x <- column_of symbol_data datetime_column ;;
  y <- column_of symbol_data column_name ;;
  Plt.plot mpl x y symbol plot_kwargs.

(** Lines 74-95: the branch taken otherwise. *)
Definition combined_layout (mpl : Backend) (df : DataFrame) (column_name : string)
    (plot_kwargs : Kwargs)
    (symbol_column datetime_column : string) (symbols : list Value) : M unit :=
  Plt.figure (Inches 10 6) ;;
  for_each symbols
    (combined_body mpl df column_name plot_kwargs symbol_column datetime_column) ;;
  Plt.title (chart_title column_name) 15 ;;
  Plt.xlabel "Date" 10 ;;
  Plt.ylabel column_name 10 ;;
  Plt.grid true ;;
  Plt.legend (105, 100) "upper left" ;;
  Plt.xticks 45 ;;
  Plt.tight_layout.

(** [plot_column(df, column_name, plot_kwargs, subplot_threshold,
    symbol_column, datetime_column)].  The function returns the [plt] module
    itself, which carries no information: the result is the store.  [mpl] is
    the matplotlib the call draws with. *)
Definition plot_column (mpl : Backend) (df : DataFrame) (column_name : string)
    (plot_kwargs : option Kwargs) (subplot_threshold : Z)
    (symbol_column datetime_column : string) : M unit :=
  if negb (has_column datetime_column df) || negb (has_column symbol_column df)
  then raise (ValueError missing_columns_message)
  else
    let plot_kwargs := kwargs_or_empty plot_kwargs in
    col <- column_of df symbol_column ;;
    let symbols := unique col in
    if len symbols >? subplot_threshold
    then grid_layout mpl df column_name plot_kwargs symbol_column datetime_column
                     symbols
    else combined_layout mpl df column_name plot_kwargs symbol_column datetime_column
                         symbols.

(** ** Sample frames *)

Definition two_symbols : DataFrame :=
  [ ("datetime", [VStr "d1"; VStr "d1"; VStr "d2"; VStr "d2"]);
    ("symbol", [VStr "MSFT"; VStr "AAPL"; VStr "MSFT"; VStr "AAPL"]);
    ("price", [VInt 10; VInt 20; VInt 11; VInt 21]) ].

(** One row per symbol, symbols [0 .. n-1]. *)
Definition numbered (n : nat) : DataFrame :=
  [ ("datetime", map (fun k => VInt (Z.of_nat k)) (seq 0 n));
    ("symbol", map (fun k => VInt (Z.of_nat k)) (seq 0 n));
    ("price", map (fun k => VInt (Z.of_nat (2 * k))) (seq 0 n)) ].

Definition without_price (n : nat) : DataFrame :=
  [ ("datetime", map (fun k => VInt (Z.of_nat k)) (seq 0 n));
    ("symbol", map (fun k => VInt (Z.of_nat k)) (seq 0 n)) ].


(** ** The figures a call leaves behind, as values *)

(** The two layouts. *)
Inductive Layout : Type :=
| Grid
| Combined.

(** [col == @v], cell by cell. *)
Definition mask_of (g : list Value) (v : Value) : list bool :=
  map (fun cell => value_eqb cell v) g.

(** The rows of the frame, as (symbol, (time, metric)) triples, and those of
    one symbol, as (time, metric) points. *)
Definition rows_of (g x y : list Value) : list (Value * (Value * Value)) :=
  combine g (combine x y).

Definition points_of (g x y : list Value) (v : Value) : list (Value * Value) :=
  map snd (filter (fun row => value_eqb (fst row) v) (rows_of g x y)).

(** The references [plt.subplots] gives out for a figure at place [n] with [cells] axes. *)
Definition refs (n cells : nat) : list AxesObj :=
  map (fun k => OneAxes (n, k)) (seq 0 cells).

(** A panel once lines 56-63 have run on it. *)
Definition painted (x y : list Value) (kw : Kwargs) (title column_name : string)
    (a : Axes) : Axes :=
  with_xtick_rotation 45
    (with_grid true
       (with_ylabel column_name 10
          (with_xlabel "Date" 10
             (with_title title 15 (add_line (mkLine x y None kw) a))))).

(** The panel of symbol [v], given the frame's symbol, time and metric columns. *)
Definition panel_of (g x y : list Value) (kw : Kwargs) (column_name : string)
    (v : Value) (a : Axes) : Axes :=
  painted (select (mask_of g v) x) (select (mask_of g v) y) kw (format_value v)
          column_name a.

(** The axes list after the grid loop has run over [l], counting from [k]. *)
Fixpoint paint (f : Value -> Axes -> Axes) (k : nat) (l : list Value)
    (axs : list Axes) : list Axes :=
  match l with
  | [] => axs
  | v :: l' => paint f (S k) l' (update_nth k (f v) axs)
  end.

(** The axes list after [set_visible(False)] on places [lo .. lo+m-1]. *)
Fixpoint hide (lo m : nat) (axs : list Axes) : list Axes :=
  match m with
  | O => axs
  | S m' => hide (S lo) m' (update_nth lo (with_visible false) axs)
  end.

(** The line of symbol [v] in the combined chart. *)
Definition line_of (g x y : list Value) (kw : Kwargs) (v : Value) : Line :=
  mkLine (select (mask_of g v) x) (select (mask_of g v) y) (Some v) kw.

(** The axes pyplot draws on: the figure's last one, or a fresh 1x1 one. *)
Definition current_axes (axs : list Axes) : Axes :=
  match axs with
  | [] => new_axes 1 1 0
  | a :: _ => last axs a
  end.

(** The single axes of the combined chart once lines 85-92 have run. *)
Definition decorated (column_name : string) (a : Axes) : Axes :=
  with_xtick_rotation 45
    (with_legend (105, 100) "upper left"
       (with_grid true
          (with_ylabel column_name 10
             (with_xlabel "Date" 10
                (with_title (chart_title column_name) 15 a))))).

(** Grid dimensions, lines 45-47. *)
Definition n_cols (G : Z) : Z := Z.min 3 G.

Definition n_rows (G : Z) : Z := (G + n_cols G - 1) / n_cols G.

(** The ceiling of [a / b] for positive [b]: the quotient, plus one when the
    division leaves a remainder. *)
Definition ceiling_div (a b : Z) : Z :=
  a / b + (if a mod b =? 0 then 0 else 1).

(** Number of panels shown and hidden in a figure. *)
Definition visible_panels (fig : Figure) : nat :=
  List.length (filter ax_visible (fig_axes fig)).

Definition hidden_panels (fig : Figure) : nat :=
  List.length (filter (fun a => negb (ax_visible a)) (fig_axes fig)).

(** The store [s] after a call that added figures [figs] and warnings [ws]. *)
Definition extend (s : PltState) (figs : list Figure) (ws : list string) : PltState :=
  mkState (figures s ++ figs) (warnings s ++ ws).

(** The current axes after the combined loop has run over [l]. *)
Definition draw_lines (g x y : list Value) (kw : Kwargs) (l : list Value)
    (a : Axes) : Axes :=
  fold_left (fun ax v => add_line (line_of g x y kw v) ax) l a.

(** The value the loop variable [i] is left with by [enumerate] over [l]
    counted from [k]. *)
Definition last_index {A : Type} (k : nat) (l : list A) (before : option nat)
    : option nat :=
  match l with
  | [] => before
  | _ :: _ => Some (k + List.length l - 1)%nat
  end.

(** Number of axes [plt.subplots] allocates for [G] symbols. *)
Definition grid_cells (G : Z) : nat := Z.to_nat (n_rows G * n_cols G).

(** The grid as [plt.subplots] hands it over, all panels blank and shown. *)
Definition blank_grid (G : Z) : Figure :=
  new_figure (Inches 15 (5 * n_rows G))
             (map (new_axes (n_rows G) (n_cols G)) (seq 0 (grid_cells G))).

(** The figure the grid branch leaves for symbols [l]. *)
Definition grid_figure (g x y : list Value) (kw : Kwargs) (column_name : string)
    (l : list Value) : Figure :=
  mkFigure (Inches 15 (5 * n_rows (len l)))
           (hide (List.length l) (grid_cells (len l) - List.length l)
              (paint (panel_of g x y kw column_name) 0 l
                 (fig_axes (blank_grid (len l)))))
           (Some (chart_title column_name)) true.

(** The figure the combined branch leaves for symbols [l]. *)
Definition combined_figure (g x y : list Value) (kw : Kwargs) (column_name : string)
    (l : list Value) : Figure :=
  mkFigure (Inches 10 6)
           [decorated column_name (draw_lines g x y kw l (new_axes 1 1 0))]
           None true.

(** Place of the first row of [col] holding [v]. *)
Fixpoint first_index (v : Value) (col : list Value) : option nat :=
  match col with
  | [] => None
  | c :: col' =>
      if value_eqb c v then Some 0%nat else option_map S (first_index v col')
  end.

(** [l] lists values of [col] in the order in which [col] first shows them. *)
Definition first_seen_order (col l : list Value) : Prop :=
  forall (i j : nat) (a b : Value),
    (i < j)%nat -> nth_error l i = Some a -> nth_error l j = Some b ->
    exists p q : nat,
      first_index a col = Some p /\ first_index b col = Some q /\ (p < q)%nat.

(** Every line of a figure, panel by panel, in drawing order. *)
Definition all_lines (fig : Figure) : list Line :=
  List.concat (map ax_lines (fig_axes fig)).

(** The (time, metric) points a line joins. *)
Definition line_points (ln : Line) : list (Value * Value) :=
  combine (line_x ln) (line_y ln).

(** The hidden-panel range computed from the symbol count and the grid
    dimensions, as the specification asks of a reimplementation. *)
Definition explicit_unused_slots (G rows cols : Z) : list nat :=
  range (Z.to_nat G) (Z.to_nat (rows * cols)).

(** A call runs as a layout when it does, on every store, what that layout's
    branch does for the frame's distinct symbols. *)
Definition runs_as (mpl : Backend) (layout : Layout) (df : DataFrame)
    (column_name : string)
    (plot_kwargs : option Kwargs) (subplot_threshold : Z)
    (symbol_column datetime_column : string) (symbols : list Value) : Prop :=
  forall s : PltState,
    plot_column mpl df column_name plot_kwargs subplot_threshold symbol_column
                datetime_column s
    = match layout with
      | Grid => grid_layout
      | Combined => combined_layout
      end mpl df column_name (kwargs_or_empty plot_kwargs) symbol_column
          datetime_column symbols s.

(** [needle] occurs in [hay]. *)
Fixpoint occurs_in (needle hay : string) : bool :=
  match hay with
  | EmptyString => String.eqb needle EmptyString
  | String _ rest => String.prefix needle hay || occurs_in needle rest
  end.

(** The lines a call drew, over the figures it added. *)
Definition drawn_lines (figs : list Figure) : list Line :=
  List.concat (map all_lines figs).

(** Titles and lines of the panels a figure shows, panel by panel. *)
Definition panel_titles (fig : Figure) : list (option (string * Z)) :=
  map ax_title (filter ax_visible (fig_axes fig)).

Definition panel_lines (fig : Figure) : list (list Line) :=
  map ax_lines (filter ax_visible (fig_axes fig)).

(** ** Draws the backend may refuse *)

(** The line of symbol [v] in its grid panel. *)
Definition grid_line (g x y : list Value) (kw : Kwargs) (v : Value) : Line :=
  mkLine (select (mask_of g v) x) (select (mask_of g v) y) None kw.

(** The grid loop over [l], counting from [k], on the axes list [axs]: the
    exception of the first draw refused, if any, and the axes list as the
    loop leaves it; a refused draw leaves its panel as it found it. *)
Fixpoint paint_until (mpl : Backend) (g x y : list Value) (kw : Kwargs)
    (column_name : string) (k : nat) (l : list Value) (axs : list Axes)
    : option Exn * list Axes :=
  match l with
  | [] => (None, axs)
  | v :: l' =>
      match nth_error axs k with
      | None => (Some IndexError, axs)
      | Some a =>
          match mpl a (grid_line g x y kw v) with
          | Some e => (Some e, axs)
          | None =>
              paint_until mpl g x y kw column_name (S k) l'
                          (update_nth k (panel_of g x y kw column_name v) axs)
          end
      end
  end.

(** The combined loop over [l] on the axes [a], likewise. *)
Fixpoint draw_until (mpl : Backend) (g x y : list Value) (kw : Kwargs)
    (l : list Value) (a : Axes) : option Exn * Axes :=
  match l with
  | [] => (None, a)
  | v :: l' =>
      match mpl a (line_of g x y kw v) with
      | Some e => (Some e, a)
      | None => draw_until mpl g x y kw l' (add_line (line_of g x y kw v) a)
      end
  end.

(** The backend takes every line of the call: in the grid layout the line of
    the [k]-th symbol on the blank [k]-th panel, in the combined layout on
    the one axes holding the lines of the symbols before it. *)
Definition draws_accepted (mpl : Backend) (g x y : list Value) (kw : Kwargs)
    (subplot_threshold : Z) : Prop :=
  forall (k : nat) (v : Value),
    nth_error (unique g) k = Some v ->
    if len (unique g) >? subplot_threshold
    then mpl (new_axes (n_rows (len (unique g))) (n_cols (len (unique g))) k)
             (grid_line g x y kw v) = None
    else mpl (draw_lines g x y kw (firstn k (unique g)) (new_axes 1 1 0))
             (line_of g x y kw v) = None.

(** The exception of the first draw the backend refuses, if any. *)
Definition first_refusal (mpl : Backend) (g x y : list Value) (kw : Kwargs)
    (column_name : string) (subplot_threshold : Z) : option Exn :=
  if len (unique g) >? subplot_threshold
  then fst (paint_until mpl g x y kw column_name 0 (unique g)
                        (fig_axes (blank_grid (len (unique g)))))
  else fst (draw_until mpl g x y kw (unique g) (new_axes 1 1 0)).

(** The outcome of a loop that stopped on the exception [r], if any. *)
Definition ended {A : Type} (r : option Exn) (a : A) : Exn + A :=
  match r with
  | Some e => inl e
  | None => inr a
  end.

(** ** What a whole call leaves behind *)

(** Number of points over all the lines a call drew. *)
Definition total_points (figs : list Figure) : nat :=
  list_sum (map (fun ln => List.length (line_points ln)) (drawn_lines figs)).

(** The outcome of a call and the figures and warnings it adds, read off the
    frame: [g], [x] and [y] are [df[symbol_column]], [df[datetime_column]]
    and [df[column_name]] where they exist. *)
Definition run_summary (mpl : Backend) (df : DataFrame) (column_name : string)
    (kw : Kwargs) (subplot_threshold : Z) (g x : list Value)
    : (Exn + unit) * list Figure * list string :=
  let G := len (unique g) in
  if G >? subplot_threshold
  then match unique g, getitem df column_name with
       | [], _ => (inl ZeroDivisionError, [], [warning_message 0])
       | _ :: _, None =>
           (inl (KeyError column_name), [blank_grid G], [warning_message G])
       | _ :: _, Some y =>
           match paint_until mpl g x y kw column_name 0 (unique g)
                             (fig_axes (blank_grid G)) with
           | (None, axs) =>
               (inr tt,
                [mkFigure (Inches 15 (5 * n_rows G))
                          (hide (List.length (unique g))
                                (grid_cells G - List.length (unique g)) axs)
                          (Some (chart_title column_name)) true],
                [warning_message G])
           | (Some e, axs) =>
               (inl e, [mkFigure (Inches 15 (5 * n_rows G)) axs None false],
                [warning_message G])
           end
       end
  else match unique g, getitem df column_name with
       | [], _ => (inr tt, [combined_figure [] [] [] kw column_name []], [])
       | _ :: _, None =>
           (inl (KeyError column_name), [new_figure (Inches 10 6) []], [])
       | _ :: _, Some y =>
           if has_key "label" kw
           then (inl (TypeError duplicate_label_message),
                 [new_figure (Inches 10 6) []], [])
           else match draw_until mpl g x y kw (unique g) (new_axes 1 1 0) with
                | (None, a) =>
                    (inr tt,
                     [mkFigure (Inches 10 6) [decorated column_name a] None true],
                     [])
                | (Some e, a) =>
                    (inl e, [mkFigure (Inches 10 6) [a] None false], [])
                end
       end.

(** * Properties *)

(** ** Runs on the sample frames *)

Example unique_keeps_first_seen_order :
  unique [VStr "MSFT"; VStr "AAPL"; VStr "MSFT"; VStr "AAPL"]
  = [VStr "MSFT"; VStr "AAPL"].
Proof. reflexivity. Qed.

Example two_symbols_combined :
  plot_column accept_all two_symbols "price" None 10 "symbol" "datetime" empty_state
  = (inr tt,
     mkState
       [mkFigure (Inches 10 6)
          [mkAxes (1, 1, 0%nat)
             [mkLine [VStr "d1"; VStr "d2"] [VInt 10; VInt 11] (Some (VStr "MSFT")) [];
              mkLine [VStr "d1"; VStr "d2"] [VInt 20; VInt 21] (Some (VStr "AAPL")) []]
             (Some ("`price` Over Time by Symbol", 15)) (Some ("Date", 10))
             (Some ("price", 10)) true (Some 45) (Some ((105, 100), "upper left"))
             true]
          None true]
       []).
Proof. reflexivity. Qed.

Example twelve_symbols_grid :
  let out := plot_column accept_all (numbered 12) "price" None 10 "symbol" "datetime" empty_state in
  fst out = inr tt
  /\ map fig_size (figures (snd out)) = [Inches 15 20]
  /\ map visible_panels (figures (snd out)) = [12%nat]
  /\ map hidden_panels (figures (snd out)) = [0%nat]
  /\ warnings (snd out)
     = ["Large number of symbols (12). Switching to subplot view for better visibility."].
Proof. vm_compute. repeat split. Qed.

Example ten_symbols_at_threshold_combined :
  let out := plot_column accept_all (numbered 10) "price" None 10 "symbol" "datetime" empty_state in
  fst out = inr tt
  /\ map fig_size (figures (snd out)) = [Inches 10 6]
  /\ map (fun fig => List.length (all_lines fig)) (figures (snd out)) = [10%nat]
  /\ warnings (snd out) = [].
Proof. vm_compute. repeat split. Qed.

Example one_symbol_grid :
  let out := plot_column accept_all (numbered 1) "price" None 0 "symbol" "datetime" empty_state in
  fst out = inr tt
  /\ map fig_size (figures (snd out)) = [Inches 15 5]
  /\ map visible_panels (figures (snd out)) = [1%nat].
Proof. vm_compute. repeat split. Qed.

Example unknown_option_refused_in_grid :
  let out := plot_column (refuses "foo") (numbered 4) "price" (Some [("foo", VInt 1)]) 3
                         "symbol" "datetime" empty_state in
  fst out = inl (AttributeError "foo")
  /\ map visible_panels (figures (snd out)) = [6%nat]
  /\ map all_lines (figures (snd out)) = [[]].
Proof. vm_compute. repeat split. Qed.

Example unknown_option_refused_in_combined :
  let out := plot_column (refuses "foo") two_symbols "price" (Some [("foo", VInt 1)]) 10
                         "symbol" "datetime" empty_state in
  fst out = inl (AttributeError "foo")
  /\ map all_lines (figures (snd out)) = [[]].
Proof. vm_compute. repeat split. Qed.

(** ** Cells, columns and [unique] *)

Lemma value_eqb_eq (a b : Value) : value_eqb a b = true <-> a = b.
Proof.
  destruct a as [s|x], b as [t|y]; simpl; split; intro H;
    try discriminate; try (inversion H; subst).
  - apply String.eqb_eq in H. now subst.
  - apply String.eqb_refl.
  - apply Z.eqb_eq in H. now subst.
  - apply Z.eqb_refl.
Qed.

Lemma value_eqb_refl (a : Value) : value_eqb a a = true.
Proof. now apply value_eqb_eq. Qed.

Lemma contains_In (v : Value) (l : list Value) : contains v l = true <-> In v l.
Proof.
  unfold contains. rewrite existsb_exists. split.
  - intros [x [Hx He]]. apply value_eqb_eq in He. now subst.
  - intro H. exists v. split; [assumption | apply value_eqb_refl].
Qed.

Lemma contains_not_In (v : Value) (l : list Value) : contains v l = false <-> ~ In v l.
Proof.
  rewrite <- contains_In. destruct (contains v l); split; intro H;
    try discriminate; try reflexivity.
  now elim H.
Qed.

Lemma unique_from_In (col seen : list Value) (v : Value) :
  In v (unique_from seen col) <-> In v col /\ ~ In v seen.
Proof.
  revert seen. induction col as [|x col IH]; intro seen; simpl.
  - tauto.
  - destruct (contains x seen) eqn:E.
    + apply contains_In in E. rewrite IH. split.
      * intros [H1 H2]. tauto.
      * intros [[->|H1] H2]; tauto.
    + apply contains_not_In in E. simpl. rewrite IH. simpl. split.
      * intros [->|[H1 H2]]; tauto.
      * intros [[->|H1] H2]; [now left|].
        destruct (value_eqb x v) eqn:Ev.
        -- apply value_eqb_eq in Ev. now left.
        -- right. split; [assumption|]. intros [->|H3]; [|tauto].
           now rewrite value_eqb_refl in Ev.
Qed.

Lemma unique_from_NoDup (col seen : list Value) : NoDup (unique_from seen col).
Proof.
  revert seen. induction col as [|x col IH]; intro seen; simpl.
  - constructor.
  - destruct (contains x seen); [apply IH|].
    constructor; [|apply IH].
    rewrite unique_from_In. simpl. tauto.
Qed.

Lemma unique_In (col : list Value) (v : Value) : In v (unique col) <-> In v col.
Proof. unfold unique. rewrite unique_from_In. simpl. tauto. Qed.

Lemma unique_NoDup (col : list Value) : NoDup (unique col).
Proof. apply unique_from_NoDup. Qed.

Lemma has_column_getitem (df : DataFrame) (name : string) :
  has_column name df = true <-> exists col, getitem df name = Some col.
Proof.
  unfold has_column, columns. induction df as [|[n c] df IH]; simpl.
  - split; [discriminate | intros [col H]; discriminate].
  - destruct (String.eqb name n); simpl.
    + split; [intros _; now exists c | reflexivity].
    + exact IH.
Qed.

Lemma has_column_false (df : DataFrame) (name : string) :
  has_column name df = false <-> getitem df name = None.
Proof.
  pose proof (has_column_getitem df name) as [H1 H2].
  destruct (has_column name df), (getitem df name) as [c|]; split; intro E;
    try reflexivity; try discriminate.
  - destruct (H1 eq_refl) as [col Hc]. discriminate.
  - assert (false = true) as F by (apply H2; now exists c). discriminate F.
Qed.

(** ** Lists updated in place *)

Lemma update_nth_length {A : Type} (f : A -> A) (l : list A) (n : nat) :
  List.length (update_nth n f l) = List.length l.
Proof.
  revert n. induction l as [|x l IH]; intros [|n]; simpl; auto.
Qed.

Lemma update_nth_app {A : Type} (f : A -> A) (l1 l2 : list A) (x : A) :
  update_nth (List.length l1) f (l1 ++ x :: l2) = l1 ++ f x :: l2.
Proof.
  induction l1 as [|y l1 IH]; simpl; [reflexivity | now rewrite IH].
Qed.

Lemma update_nth_twice {A : Type} (f g : A -> A) (l : list A) (n : nat) :
  update_nth n g (update_nth n f l) = update_nth n (fun a => g (f a)) l.
Proof.
  revert n. induction l as [|x l IH]; intros [|n]; simpl; auto.
  now rewrite IH.
Qed.

Lemma nth_error_seq_lt (a n k : nat) :
  (k < n)%nat -> nth_error (seq a n) k = Some (a + k)%nat.
Proof.
  revert a k. induction n as [|n IH]; intros a k Hk; [lia|].
  destruct k as [|k]; simpl.
  - f_equal. lia.
  - rewrite IH by lia. f_equal. lia.
Qed.

Lemma refs_lookup (n cells k : nat) :
  (k < cells)%nat -> nth_error (refs n cells) k = Some (OneAxes (n, k)).
Proof.
  intro Hk. unfold refs. rewrite nth_error_map, nth_error_seq_lt by assumption.
  reflexivity.
Qed.

(** ** One step of each collaborator on the current figure *)

Section OnCurrentFigure.

Variables (pre : list Figure) (ws : list string).
Variables (sz : FigSize) (sup : option string) (tl : bool).

Local Abbreviation store axs := (mkState (pre ++ [mkFigure sz axs sup tl]) ws).

Lemma modify_axes_current (k : nat) (f : Axes -> Axes) (axs : list Axes) :
  modify_axes (List.length pre, k) f (store axs)
  = (inr tt, store (update_nth k f axs)).
Proof.
  unfold modify_axes. simpl. now rewrite update_nth_app.
Qed.

Lemma gcf_current (fig : Figure) :
  Plt.gcf (mkState (pre ++ [fig]) ws)
  = (inr (List.length pre), mkState (pre ++ [fig]) ws).
Proof.
  unfold Plt.gcf. simpl. destruct (pre ++ [fig]) as [|p l] eqn:E.
  - now destruct pre.
  - rewrite <- E. rewrite length_app. simpl. do 2 f_equal. lia.
Qed.

Lemma nth_error_current (fig : Figure) :
  nth_error (pre ++ [fig]) (List.length pre) = Some fig.
Proof.
  rewrite nth_error_app2 by lia. now rewrite Nat.sub_diag.
Qed.

Lemma gca_fresh :
  Plt.gca (store []) = (inr (List.length pre, 0%nat), store [new_axes 1 1 0]).
Proof.
  unfold Plt.gca, bind. rewrite gcf_current.
  unfold get_state. simpl. rewrite nth_error_current. simpl.
  unfold modify_figure, ret. simpl. now rewrite update_nth_app.
Qed.

Lemma gca_single (a : Axes) :
  Plt.gca (store [a]) = (inr (List.length pre, 0%nat), store [a]).
Proof.
  unfold Plt.gca, bind. rewrite gcf_current.
  unfold get_state. simpl. rewrite nth_error_current. reflexivity.
Qed.

(** A pyplot call that acts on the current axes, on a figure with at most
    one axes. *)
Lemma on_current_axes (f : Axes -> Axes) (axs : list Axes) :
  (List.length axs <= 1)%nat ->
  (r <- Plt.gca ;; modify_axes r f) (store axs)
  = (inr tt, store [f (current_axes axs)]).
Proof.
  intro H. destruct axs as [|a [|b axs]]; simpl in H; [| |lia].
  - unfold bind. rewrite gca_fresh. now rewrite modify_axes_current.
  - unfold bind. rewrite gca_single. now rewrite modify_axes_current.
Qed.

Lemma read_axes_current (k : nat) (axs : list Axes) :
  read_axes (List.length pre, k) (store axs)
  = match nth_error axs k with
    | None => (inl IndexError, store axs)
    | Some a => (inr a, store axs)
    end.
Proof.
  unfold read_axes. simpl. rewrite nth_error_current. simpl.
  now destruct (nth_error axs k).
Qed.

(** A draw on the [k]-th axes of the current figure. *)
Lemma draw_current (mpl : Backend) (k : nat) (ln : Line) (axs : list Axes) :
  Ax.draw mpl (List.length pre, k) ln (store axs)
  = match nth_error axs k with
    | None => (inl IndexError, store axs)
    | Some a =>
        match mpl a ln with
        | Some e => (inl e, store axs)
        | None => (inr tt, store (update_nth k (add_line ln) axs))
        end
    end.
Proof.
  unfold Ax.draw, bind. rewrite read_axes_current.
  destruct (nth_error axs k) as [a|]; [|reflexivity].
  destruct (mpl a ln); [reflexivity | apply modify_axes_current].
Qed.

(** A pyplot draw, on a figure with at most one axes. *)
Lemma draw_on_current_axes (mpl : Backend) (ln : Line) (axs : list Axes) :
  (List.length axs <= 1)%nat ->
  (r <- Plt.gca ;; Ax.draw mpl r ln) (store axs)
  = match mpl (current_axes axs) ln with
    | Some e => (inl e, store [current_axes axs])
    | None => (inr tt, store [add_line ln (current_axes axs)])
    end.
Proof.
  intro H. destruct axs as [|a [|b axs]]; simpl in H; [| |lia].
  - unfold bind. rewrite gca_fresh, draw_current. reflexivity.
  - unfold bind. rewrite gca_single, draw_current. reflexivity.
Qed.

Lemma suptitle_current (t : string) (axs : list Axes) :
  Plt.suptitle t (store axs)
  = (inr tt, mkState (pre ++ [mkFigure sz axs (Some t) tl]) ws).
Proof.
  unfold Plt.suptitle, bind. rewrite gcf_current.
  unfold modify_figure. simpl. now rewrite update_nth_app.
Qed.

Lemma tight_layout_current (axs : list Axes) :
  Plt.tight_layout (store axs)
  = (inr tt, mkState (pre ++ [mkFigure sz axs sup true]) ws).
Proof.
  unfold Plt.tight_layout, bind. rewrite gcf_current.
  unfold modify_figure. simpl. now rewrite update_nth_app.
Qed.

Lemma axes_at_refs (cells k : nat) (attr : string) (s : PltState) :
  (k < cells)%nat ->
  axes_at (refs (List.length pre) cells) k attr s = (inr (List.length pre, k), s).
Proof.
  intro Hk. unfold axes_at, bind, index. now rewrite refs_lookup.
Qed.

End OnCurrentFigure.

(** ** The loops *)

Lemma getitem_query (df : DataFrame) (mask : list bool) (name : string) :
  getitem (map (fun c => (fst c, select mask (snd c))) df) name
  = option_map (select mask) (getitem df name).
Proof.
  induction df as [|[n c] df IH]; simpl; [reflexivity|].
  destruct (String.eqb name n); [reflexivity | exact IH].
Qed.

(** Run the first command of a [bind] chain by its equation [H]. *)
Tactic Notation "step" open_constr(H) :=
  unfold bind at 1; rewrite H; cbv beta iota.
Tactic Notation "step" open_constr(H) "by" tactic(t) :=
  unfold bind at 1; rewrite H by t; cbv beta iota.

Section Loops.

Variable mpl : Backend.
Variables (df : DataFrame) (column_name : string) (kw : Kwargs).
Variables (symbol_column datetime_column : string).
Variables (g x : list Value).
Hypothesis symbol_present : getitem df symbol_column = Some g.
Hypothesis datetime_present : getitem df datetime_column = Some x.

Variables (pre : list Figure) (ws : list string).
Variables (sz : FigSize) (sup : option string) (tl : bool).

Local Abbreviation store axs := (mkState (pre ++ [mkFigure sz axs sup tl]) ws).
Local Abbreviation here := (List.length pre).

Lemma symbol_rows_ok (v : Value) (s : PltState) :
  symbol_rows df symbol_column v s
  = (inr (map (fun c => (fst c, select (mask_of g v) (snd c))) df), s).
Proof.
  unfold symbol_rows, query_eq. now rewrite symbol_present.
Qed.

Lemma column_of_rows (name : string) (c : list Value) (v : Value) (s : PltState) :
  getitem df name = Some c ->
  column_of (map (fun c => (fst c, select (mask_of g v) (snd c))) df) name s
  = (inr (select (mask_of g v) c), s).
Proof.
  intro H. unfold column_of. now rewrite getitem_query, H.
Qed.

Lemma column_of_rows_absent (name : string) (v : Value) (s : PltState) :
  getitem df name = None ->
  column_of (map (fun c => (fst c, select (mask_of g v) (snd c))) df) name s
  = (inl (KeyError name), s).
Proof.
  intro H. unfold column_of. now rewrite getitem_query, H.
Qed.

Section MetricPresent.

Variable y : list Value.
Hypothesis metric_present : getitem df column_name = Some y.

(** One pass of the grid loop: the draw may be refused, and then the pass
    stops there; otherwise the panel is painted. *)
Lemma grid_body_run (cells k : nat) (v : Value) (axs : list Axes) :
  (k < cells)%nat ->
  grid_body mpl df column_name kw symbol_column datetime_column (refs here cells)
            k v (store axs)
  = match nth_error axs k with
    | None => (inl IndexError, store axs)
    | Some a =>
        match mpl a (grid_line g x y kw v) with
        | Some e => (inl e, store axs)
        | None => (inr tt, store (update_nth k (panel_of g x y kw column_name v) axs))
        end
    end.
Proof.
  intro Hk. unfold grid_body.
  step symbol_rows_ok.
  step (axes_at_refs pre cells k) by assumption.
  step (column_of_rows datetime_column x) by assumption.
  step (column_of_rows column_name y) by assumption.
  unfold Ax.plot. step draw_current. fold (grid_line g x y kw v).
  destruct (nth_error axs k) as [a|]; [|reflexivity].
  destruct (mpl a (grid_line g x y kw v)); [reflexivity|].
  step (axes_at_refs pre cells k) by assumption.
  unfold Ax.set_title, Ax.set_xlabel, Ax.set_ylabel, Ax.grid, Ax.tick_params_x.
  do 4 (step modify_axes_current;
        step (axes_at_refs pre cells k) by assumption).
  rewrite modify_axes_current, !update_nth_twice. reflexivity.
Qed.

Lemma grid_loop_run (cells : nat) (l : list Value) :
  forall (k : nat) (axs : list Axes) (before : option nat),
    (k + List.length l <= cells)%nat ->
    for_enumerate
      (grid_body mpl df column_name kw symbol_column datetime_column
                 (refs here cells))
      k l before (store axs)
    = (ended (fst (paint_until mpl g x y kw column_name k l axs))
             (last_index k l before),
       store (snd (paint_until mpl g x y kw column_name k l axs))).
Proof.
  induction l as [|v l IH]; intros k axs before Hk; simpl in *.
  - reflexivity.
  - step grid_body_run by lia.
    destruct (nth_error axs k) as [a|]; [|reflexivity].
    destruct (mpl a (grid_line g x y kw v)); [reflexivity|].
    rewrite IH by lia.
    replace (last_index (S k) l (Some k))
      with (Some (k + S (List.length l) - 1)%nat); [reflexivity|].
    destruct l; simpl; apply f_equal; lia.
Qed.

(** One pass of the combined loop, on a figure with at most one axes. *)
Lemma combined_body_run (v : Value) (axs : list Axes) :
  has_key "label" kw = false ->
  (List.length axs <= 1)%nat ->
  combined_body mpl df column_name kw symbol_column datetime_column v (store axs)
  = match mpl (current_axes axs) (line_of g x y kw v) with
    | Some e => (inl e, store [current_axes axs])
    | None => (inr tt, store [add_line (line_of g x y kw v) (current_axes axs)])
    end.
Proof.
  intros Hkw Hlen. unfold combined_body.
  step symbol_rows_ok.
  step (column_of_rows datetime_column x) by assumption.
  step (column_of_rows column_name y) by assumption.
  unfold Plt.plot. rewrite Hkw.
  now rewrite draw_on_current_axes.
Qed.

Lemma combined_loop_run (l : list Value) :
  has_key "label" kw = false ->
  forall axs : list Axes,
    (List.length axs <= 1)%nat ->
    for_each l (combined_body mpl df column_name kw symbol_column datetime_column)
             (store axs)
    = match l with
      | [] => (inr tt, store axs)
      | _ :: _ =>
          (ended (fst (draw_until mpl g x y kw l (current_axes axs))) tt,
           store [snd (draw_until mpl g x y kw l (current_axes axs))])
      end.
Proof.
  intro Hkw. induction l as [|v l IH]; intros axs Hlen.
  - reflexivity.
  - simpl for_each. step combined_body_run by assumption. simpl draw_until.
    destruct (mpl (current_axes axs) (line_of g x y kw v)); [reflexivity|].
    rewrite IH by (simpl; lia). destruct l; reflexivity.
Qed.

End MetricPresent.

Section MetricAbsent.

Hypothesis metric_absent : getitem df column_name = None.

Lemma grid_body_key_error (cells k : nat) (v : Value) (s : PltState) :
  (k < cells)%nat ->
  grid_body mpl df column_name kw symbol_column datetime_column (refs here cells)
            k v s
  = (inl (KeyError column_name), s).
Proof.
  intro Hk. unfold grid_body.
  step symbol_rows_ok.
  step (axes_at_refs pre cells k) by assumption.
  step (column_of_rows datetime_column x) by assumption.
  step (column_of_rows_absent column_name) by assumption.
  reflexivity.
Qed.

Lemma combined_body_key_error (v : Value) (s : PltState) :
  combined_body mpl df column_name kw symbol_column datetime_column v s
  = (inl (KeyError column_name), s).
Proof.
  unfold combined_body.
  step symbol_rows_ok.
  step (column_of_rows datetime_column x) by assumption.
  step (column_of_rows_absent column_name) by assumption.
  reflexivity.
Qed.

End MetricAbsent.

Lemma combined_body_type_error (y : list Value) (v : Value) (s : PltState) :
  getitem df column_name = Some y ->
  has_key "label" kw = true ->
  combined_body mpl df column_name kw symbol_column datetime_column v s
  = (inl (TypeError duplicate_label_message), s).
Proof.
  intros Hy Hkw. unfold combined_body.
  step symbol_rows_ok.
  step (column_of_rows datetime_column x) by assumption.
  step (column_of_rows column_name y) by assumption.
  unfold Plt.plot. rewrite Hkw. reflexivity.
Qed.

Lemma hide_loop_ok (cells : nat) (m : nat) :
  forall (lo : nat) (axs : list Axes),
    (lo + m <= cells)%nat ->
    for_each (seq lo m)
             (fun j => ax <- axes_at (refs here cells) j "set_visible" ;;
                       Ax.set_visible ax false)
             (store axs)
    = (inr tt, store (hide lo m axs)).
Proof.
  induction m as [|m IH]; intros lo axs Hm; simpl.
  - reflexivity.
  - unfold bind at 1 2. rewrite (axes_at_refs pre cells lo) by lia.
    cbv beta iota. unfold Ax.set_visible. rewrite modify_axes_current.
    apply IH. lia.
Qed.

End Loops.

(** ** Draws taken and draws refused *)

Section Refusals.

Variable mpl : Backend.
Variables (g x y : list Value) (kw : Kwargs) (column_name : string).

(** While the backend takes the lines, the grid loop paints. *)
Lemma paint_until_accepted (fresh : nat -> Axes) (l : list Value) :
  forall (k m : nat) (done : list Axes),
    List.length done = k ->
    (List.length l <= m)%nat ->
    (forall j v, nth_error l j = Some v ->
                 mpl (fresh (k + j)%nat) (grid_line g x y kw v) = None) ->
    paint_until mpl g x y kw column_name k l (done ++ map fresh (seq k m))
    = (None, paint (panel_of g x y kw column_name) k l (done ++ map fresh (seq k m))).
Proof.
  induction l as [|v l IH]; intros k m done Hd Hm Hacc; simpl.
  - reflexivity.
  - destruct m as [|m]; simpl in Hm; [lia|]. simpl seq. simpl map.
    rewrite nth_error_app2 by lia. rewrite Hd, Nat.sub_diag. simpl nth_error.
    cbv beta iota.
    pose proof (Hacc 0%nat v eq_refl) as H0. rewrite Nat.add_0_r in H0. rewrite H0.
    rewrite <- Hd, update_nth_app, Hd.
    change (done ++ panel_of g x y kw column_name v (fresh k)
                 :: map fresh (seq (S k) m))
      with (done ++ [panel_of g x y kw column_name v (fresh k)]
                 ++ map fresh (seq (S k) m)).
    rewrite app_assoc. apply IH.
    + rewrite length_app. simpl. lia.
    + lia.
    + intros j v' Hj. specialize (Hacc (S j) v' Hj).
      now rewrite Nat.add_succ_r in Hacc.
Qed.

(** While the backend takes the lines, the combined loop adds them. *)
Lemma draw_until_accepted (l : list Value) :
  forall a : Axes,
    (forall j v, nth_error l j = Some v ->
                 mpl (draw_lines g x y kw (firstn j l) a) (line_of g x y kw v) = None) ->
    draw_until mpl g x y kw l a = (None, draw_lines g x y kw l a).
Proof.
  induction l as [|v l IH]; intros a Hacc; simpl.
  - reflexivity.
  - pose proof (Hacc 0%nat v eq_refl) as H0.
    change (mpl a (line_of g x y kw v) = None) in H0. rewrite H0. apply IH.
    intros j v' Hj. exact (Hacc (S j) v' Hj).
Qed.

(** Whatever the backend does, the grid loop has painted the panels of the
    first symbols, all of them if no draw was refused. *)
Lemma paint_until_prefix (l : list Value) :
  forall (k : nat) (axs : list Axes),
    exists j : nat,
      (j <= List.length l)%nat
      /\ snd (paint_until mpl g x y kw column_name k l axs)
         = paint (panel_of g x y kw column_name) k (firstn j l) axs
      /\ (fst (paint_until mpl g x y kw column_name k l axs) = None ->
          j = List.length l).
Proof.
  induction l as [|v l IH]; intros k axs; simpl.
  - exists 0%nat. repeat split. lia.
  - destruct (nth_error axs k) as [a|].
    + destruct (mpl a (grid_line g x y kw v)).
      * exists 0%nat. simpl. repeat split; [lia | discriminate].
      * destruct (IH (S k) (update_nth k (panel_of g x y kw column_name v) axs))
          as [j [Hj [Hs Hf]]].
        exists (S j). simpl. repeat split; [lia | exact Hs | intro H; now rewrite Hf].
    + exists 0%nat. simpl. repeat split; [lia | discriminate].
Qed.

Lemma draw_until_prefix (l : list Value) :
  forall a : Axes,
    exists j : nat,
      (j <= List.length l)%nat
      /\ snd (draw_until mpl g x y kw l a) = draw_lines g x y kw (firstn j l) a
      /\ (fst (draw_until mpl g x y kw l a) = None -> j = List.length l).
Proof.
  induction l as [|v l IH]; intro a; simpl.
  - exists 0%nat. repeat split. lia.
  - destruct (mpl a (line_of g x y kw v)).
    + exists 0%nat. simpl. repeat split; [lia | discriminate].
    + destruct (IH (add_line (line_of g x y kw v) a)) as [j [Hj [Hs Hf]]].
      exists (S j). simpl. repeat split; [lia | exact Hs | intro H; now rewrite Hf].
Qed.

(** An exception of the grid loop on a grid with room for its symbols is
    one the backend raised. *)
Lemma paint_until_refusal (l : list Value) :
  forall (k : nat) (axs : list Axes) (e : Exn),
    (k + List.length l <= List.length axs)%nat ->
    fst (paint_until mpl g x y kw column_name k l axs) = Some e ->
    exists a ln, mpl a ln = Some e.
Proof.
  induction l as [|v l IH]; intros k axs e Hk H; simpl in *.
  - discriminate.
  - destruct (nth_error axs k) as [a|] eqn:Ea.
    + destruct (mpl a (grid_line g x y kw v)) as [e'|] eqn:Em.
      * simpl in H. inversion H. subst e'. now exists a, (grid_line g x y kw v).
      * apply (IH (S k) (update_nth k (panel_of g x y kw column_name v) axs) e);
          [rewrite update_nth_length; lia | exact H].
    + apply nth_error_None in Ea. lia.
Qed.

Lemma draw_until_refusal (l : list Value) :
  forall (a : Axes) (e : Exn),
    fst (draw_until mpl g x y kw l a) = Some e ->
    exists a' ln, mpl a' ln = Some e.
Proof.
  induction l as [|v l IH]; intros a e H; simpl in *.
  - discriminate.
  - destruct (mpl a (line_of g x y kw v)) as [e'|] eqn:Em.
    + simpl in H. inversion H. subst e'. now exists a, (line_of g x y kw v).
    + exact (IH (add_line (line_of g x y kw v) a) e H).
Qed.

End Refusals.

(** ** Grid dimensions *)

Lemma n_cols_pos (G : Z) : 1 <= G -> 1 <= n_cols G <= 3.
Proof. unfold n_cols. lia. Qed.

Lemma n_rows_bounds (G : Z) :
  1 <= G -> n_cols G * (n_rows G - 1) < G <= n_cols G * n_rows G.
Proof.
  intro HG. pose proof (n_cols_pos G HG) as Hc. unfold n_rows.
  pose proof (Z.div_mod (G + n_cols G - 1) (n_cols G)) as Hd.
  pose proof (Z.mod_pos_bound (G + n_cols G - 1) (n_cols G)) as Hm.
  nia.
Qed.

Lemma n_rows_pos (G : Z) : 1 <= G -> 1 <= n_rows G.
Proof.
  intro HG. pose proof (n_cols_pos G HG). pose proof (n_rows_bounds G HG). nia.
Qed.

Lemma grid_cells_enough (G : Z) : 1 <= G -> G <= Z.of_nat (grid_cells G).
Proof.
  intro HG. pose proof (n_cols_pos G HG). pose proof (n_rows_bounds G HG).
  unfold grid_cells. rewrite Z2Nat.id by nia. lia.
Qed.

Lemma n_rows_is_ceiling (G : Z) : 1 <= G -> n_rows G = ceiling_div G (n_cols G).
Proof.
  intro HG. pose proof (n_cols_pos G HG) as Hc.
  pose proof (n_rows_bounds G HG) as Hb. unfold ceiling_div.
  pose proof (Z.div_mod G (n_cols G)) as Hd.
  pose proof (Z.mod_pos_bound G (n_cols G)) as Hm.
  destruct (Z.eqb_spec (G mod n_cols G) 0) as [E|E]; nia.
Qed.

Lemma symbols_have_room (l : list Value) :
  l <> [] -> (List.length l <= grid_cells (len l))%nat.
Proof.
  intro Hl. apply Nat2Z.inj_le. apply grid_cells_enough.
  unfold len. destruct l; simpl in *; [congruence | lia].
Qed.

(** ** The grid branch *)

Lemma floordiv_ok (a b : Z) (s : PltState) :
  b <> 0 -> floordiv a b s = (inr (a / b), s).
Proof.
  intro Hb. unfold floordiv. destruct (Z.eqb_spec b 0); [contradiction | reflexivity].
Qed.

Lemma subplots_ok (r c : Z) (size : FigSize) (s : PltState) :
  1 <= r -> 1 <= c ->
  Plt.subplots r c size s
  = (inr (if (r =? 1) && (c =? 1) then OneAxes (List.length (figures s), 0%nat)
          else AxesArray (map (fun k => (List.length (figures s), k))
                              (seq 0 (Z.to_nat (r * c))))),
     mkState (figures s
                ++ [new_figure size (map (new_axes r c) (seq 0 (Z.to_nat (r * c))))])
             (warnings s)).
Proof.
  intros Hr Hc. unfold Plt.subplots.
  destruct (Z.leb_spec r 0); [lia|]. destruct (Z.leb_spec c 0); [lia|].
  reflexivity.
Qed.

(** Line 49: whichever way it goes, [axes] ends up as the flat list of the
    grid's panels. *)
Lemma flat_axes (G : Z) (n : nat) (s : PltState) :
  1 <= G ->
  (if G >? 1
   then flatten (if (n_rows G =? 1) && (n_cols G =? 1) then OneAxes (n, 0%nat)
                 else AxesArray (map (fun k => (n, k)) (seq 0 (grid_cells G))))
   else ret [if (n_rows G =? 1) && (n_cols G =? 1) then OneAxes (n, 0%nat)
             else AxesArray (map (fun k => (n, k)) (seq 0 (grid_cells G)))]) s
  = (inr (refs n (grid_cells G)), s).
Proof.
  intro HG. destruct (Z.gtb_spec G 1) as [H1|H1].
  - assert ((n_cols G =? 1) = false) as -> by (apply Z.eqb_neq; unfold n_cols; lia).
    rewrite andb_false_r. simpl. unfold ret, refs. now rewrite map_map.
  - assert (G = 1) as -> by lia. reflexivity.
Qed.

Section GridBranch.

Variable mpl : Backend.
Variables (df : DataFrame) (column_name : string) (kw : Kwargs).
Variables (symbol_column datetime_column : string).
Variables (g x : list Value).
Hypothesis symbol_present : getitem df symbol_column = Some g.
Hypothesis datetime_present : getitem df datetime_column = Some x.
Variable l : list Value.

(** The grid branch on one or more symbols, with the metric column there:
    it returns if every draw is taken, and stops on the first one refused,
    before the hide step, the figure title and the layout. *)
Lemma grid_layout_run (y : list Value) (s : PltState) :
  getitem df column_name = Some y ->
  l <> [] ->
  grid_layout mpl df column_name kw symbol_column datetime_column l s
  = match paint_until mpl g x y kw column_name 0 l (fig_axes (blank_grid (len l))) with
    | (None, axs) =>
        (inr tt,
         extend s [mkFigure (Inches 15 (5 * n_rows (len l)))
                            (hide (List.length l) (grid_cells (len l) - List.length l)
                                  axs)
                            (Some (chart_title column_name)) true]
                [warning_message (len l)])
    | (Some e, axs) =>
        (inl e,
         extend s [mkFigure (Inches 15 (5 * n_rows (len l))) axs None false]
                [warning_message (len l)])
    end.
Proof.
  intros Hy Hl.
  assert (1 <= len l) as HG by (unfold len; destruct l; simpl in *; [congruence | lia]).
  pose proof (n_cols_pos _ HG) as Hc. pose proof (n_rows_pos _ HG) as Hr.
  pose proof (symbols_have_room l Hl) as Hcells.
  destruct s as [figs ws0]. unfold grid_layout, extend. cbv zeta.
  change (Z.min 3 (len l)) with (n_cols (len l)).
  unfold bind at 1. unfold logger_warning at 1. cbv beta iota. simpl figures. simpl warnings.
  step floordiv_ok by lia.
  change ((len l + n_cols (len l) - 1) / n_cols (len l)) with (n_rows (len l)).
  step subplots_ok by lia. simpl figures. simpl warnings.
  change (Z.to_nat (n_rows (len l) * n_cols (len l))) with (grid_cells (len l)).
  step flat_axes by assumption.
  unfold new_figure.
  step (grid_loop_run mpl df column_name kw symbol_column datetime_column g x
          symbol_present datetime_present figs _ _ _ _ y Hy) by lia.
  unfold blank_grid, new_figure. simpl fig_axes.
  destruct (paint_until mpl g x y kw column_name 0 l
              (map (new_axes (n_rows (len l)) (n_cols (len l)))
                   (seq 0 (grid_cells (len l))))) as [[e|] axs];
    simpl fst; simpl snd; unfold ended; [reflexivity|].
  destruct l as [|v l']; [congruence|]. unfold last_index, or_raise.
  step (fun A (a : A) s => eq_refl : ret a s = (inr a, s)).
  unfold hide_unused, unused_slots, range, refs at 1. rewrite length_map, length_seq.
  fold (refs (List.length figs) (grid_cells (len (v :: l')))).
  replace (0 + List.length (v :: l') - 1 + 1)%nat with (List.length (v :: l'))
    by (simpl; lia).
  step (hide_loop_ok figs) by lia.
  step suptitle_current.
  rewrite tight_layout_current. reflexivity.
Qed.

(** The same when the backend takes the line of every symbol on its blank
    panel. *)
Lemma grid_layout_ok (y : list Value) (s : PltState) :
  getitem df column_name = Some y ->
  l <> [] ->
  (forall k v, nth_error l k = Some v ->
               mpl (new_axes (n_rows (len l)) (n_cols (len l)) k)
                   (grid_line g x y kw v) = None) ->
  grid_layout mpl df column_name kw symbol_column datetime_column l s
  = (inr tt,
     extend s [grid_figure g x y kw column_name l] [warning_message (len l)]).
Proof.
  intros Hy Hl Hacc. rewrite (grid_layout_run y s Hy Hl).
  unfold blank_grid, new_figure. simpl fig_axes.
  pose proof (paint_until_accepted mpl g x y kw column_name
                (new_axes (n_rows (len l)) (n_cols (len l))) l 0
                (grid_cells (len l)) [] eq_refl (symbols_have_room l Hl) Hacc) as H.
  cbn [app] in H. rewrite H. reflexivity.
Qed.

Lemma grid_layout_zero (s : PltState) :
  grid_layout mpl df column_name kw symbol_column datetime_column [] s
  = (inl ZeroDivisionError, extend s [] [warning_message 0]).
Proof.
  destruct s as [figs ws0]. unfold grid_layout, extend. simpl.
  now rewrite app_nil_r.
Qed.

Lemma grid_layout_key_error (s : PltState) :
  getitem df column_name = None ->
  l <> [] ->
  grid_layout mpl df column_name kw symbol_column datetime_column l s
  = (inl (KeyError column_name),
     extend s [blank_grid (len l)] [warning_message (len l)]).
Proof.
  intros Hy Hl.
  assert (1 <= len l) as HG by (unfold len; destruct l; simpl in *; [congruence | lia]).
  pose proof (n_cols_pos _ HG) as Hc. pose proof (n_rows_pos _ HG) as Hr.
  pose proof (symbols_have_room l Hl) as Hcells.
  destruct s as [figs ws0]. unfold grid_layout, extend. cbv zeta.
  change (Z.min 3 (len l)) with (n_cols (len l)).
  unfold bind at 1. unfold logger_warning at 1. cbv beta iota. simpl figures. simpl warnings.
  step floordiv_ok by lia.
  change ((len l + n_cols (len l) - 1) / n_cols (len l)) with (n_rows (len l)).
  step subplots_ok by lia. simpl figures. simpl warnings.
  change (Z.to_nat (n_rows (len l) * n_cols (len l))) with (grid_cells (len l)).
  step flat_axes by assumption.
  destruct l as [|v l']; [congruence|]. simpl for_enumerate.
  unfold bind at 1. unfold bind at 1.
  rewrite (grid_body_key_error mpl df column_name kw symbol_column datetime_column g x
             symbol_present datetime_present figs Hy) by (simpl in Hcells; lia).
  reflexivity.
Qed.

End GridBranch.

(** ** The combined branch *)

Lemma figure_ok (size : FigSize) (s : PltState) :
  Plt.figure size s = (inr tt, mkState (figures s ++ [mkFigure size [] None false]) (warnings s)).
Proof. reflexivity. Qed.

(** Lines 85-95 on a figure with at most one axes. *)
Lemma decorate_ok (column_name : string) (pre : list Figure) (ws : list string)
    (sz : FigSize) (sup : option string) (tl : bool) (axs : list Axes) :
  (List.length axs <= 1)%nat ->
  (Plt.title (chart_title column_name) 15 ;;
   Plt.xlabel "Date" 10 ;;
   Plt.ylabel column_name 10 ;;
   Plt.grid true ;;
   Plt.legend (105, 100) "upper left" ;;
   Plt.xticks 45 ;;
   Plt.tight_layout) (mkState (pre ++ [mkFigure sz axs sup tl]) ws)
  = (inr tt,
     mkState (pre ++ [mkFigure sz [decorated column_name (current_axes axs)] sup true])
             ws).
Proof.
  intro Hlen.
  unfold Plt.title, Plt.xlabel, Plt.ylabel, Plt.grid, Plt.legend, Plt.xticks,
    Ax.set_title, Ax.set_xlabel, Ax.set_ylabel, Ax.grid, Ax.tick_params_x.
  step on_current_axes by assumption.
  do 5 (step on_current_axes by (simpl; lia); simpl current_axes).
  now rewrite tight_layout_current.
Qed.

Section CombinedBranch.

Variable mpl : Backend.
Variables (df : DataFrame) (column_name : string) (kw : Kwargs).
Variables (symbol_column datetime_column : string).
Variables (g x : list Value).
Hypothesis symbol_present : getitem df symbol_column = Some g.
Hypothesis datetime_present : getitem df datetime_column = Some x.
Variable l : list Value.

(** The combined branch on one or more symbols, with the metric column
    there and [label] free: it returns if every draw is taken, and stops on
    the first one refused, before the decorations. *)
Lemma combined_layout_run (y : list Value) (s : PltState) :
  getitem df column_name = Some y ->
  has_key "label" kw = false ->
  l <> [] ->
  combined_layout mpl df column_name kw symbol_column datetime_column l s
  = match draw_until mpl g x y kw l (new_axes 1 1 0) with
    | (None, a) =>
        (inr tt,
         extend s [mkFigure (Inches 10 6) [decorated column_name a] None true] [])
    | (Some e, a) =>
        (inl e, extend s [mkFigure (Inches 10 6) [a] None false] [])
    end.
Proof.
  intros Hy Hkw Hl. destruct s as [figs ws0]. unfold combined_layout, extend.
  step figure_ok. simpl figures. simpl warnings.
  step (combined_loop_run mpl df column_name kw symbol_column datetime_column g x
          symbol_present datetime_present figs _ _ _ _ y Hy l Hkw) by (simpl; lia).
  destruct l as [|v l']; [congruence|]. simpl current_axes.
  destruct (draw_until mpl g x y kw (v :: l') (new_axes 1 1 0)) as [[e|] a];
    simpl fst; simpl snd; unfold ended.
  - now rewrite app_nil_r.
  - rewrite decorate_ok by (simpl; lia). now rewrite app_nil_r.
Qed.

(** The same when the backend takes every line on the axes as it then
    stands. *)
Lemma combined_layout_ok (y : list Value) (s : PltState) :
  getitem df column_name = Some y ->
  has_key "label" kw = false ->
  (forall k v, nth_error l k = Some v ->
               mpl (draw_lines g x y kw (firstn k l) (new_axes 1 1 0))
                   (line_of g x y kw v) = None) ->
  combined_layout mpl df column_name kw symbol_column datetime_column l s
  = (inr tt, extend s [combined_figure g x y kw column_name l] []).
Proof.
  intros Hy Hkw Hacc. destruct l as [|v l'] eqn:El.
  - destruct s as [figs ws0]. unfold combined_layout, extend.
    step figure_ok. simpl figures. simpl warnings. simpl for_each.
    step (fun s => eq_refl : ret tt s = (inr tt, s)).
    rewrite decorate_ok by (simpl; lia).
    now rewrite app_nil_r.
  - rewrite <- El in *. rewrite (combined_layout_run y s Hy Hkw) by (rewrite El; discriminate).
    now rewrite (draw_until_accepted mpl g x y kw l (new_axes 1 1 0) Hacc).
Qed.

Lemma combined_layout_empty (y : list Value) (s : PltState) :
  l = [] ->
  combined_layout mpl df column_name kw symbol_column datetime_column l s
  = (inr tt, extend s [combined_figure g x y kw column_name []] []).
Proof.
  intros ->. destruct s as [figs ws0]. unfold combined_layout, extend.
  step figure_ok. simpl figures. simpl warnings. simpl for_each.
  step (fun s => eq_refl : ret tt s = (inr tt, s)).
  rewrite decorate_ok by (simpl; lia).
  now rewrite app_nil_r.
Qed.

Lemma combined_layout_key_error (s : PltState) :
  getitem df column_name = None ->
  l <> [] ->
  combined_layout mpl df column_name kw symbol_column datetime_column l s
  = (inl (KeyError column_name), extend s [new_figure (Inches 10 6) []] []).
Proof.
  intros Hy Hl. destruct s as [figs ws0]. unfold combined_layout, extend.
  step figure_ok. simpl figures. simpl warnings.
  destruct l as [|v l']; [congruence|]. simpl for_each.
  unfold bind at 1. unfold bind at 1.
  rewrite (combined_body_key_error mpl df column_name kw symbol_column datetime_column
             g x symbol_present datetime_present Hy).
  now rewrite app_nil_r.
Qed.

Lemma combined_layout_type_error (y : list Value) (s : PltState) :
  getitem df column_name = Some y ->
  has_key "label" kw = true ->
  l <> [] ->
  combined_layout mpl df column_name kw symbol_column datetime_column l s
  = (inl (TypeError duplicate_label_message),
     extend s [new_figure (Inches 10 6) []] []).
Proof.
  intros Hy Hkw Hl. destruct s as [figs ws0]. unfold combined_layout, extend.
  destruct l as [|v l']; [congruence|].
  step figure_ok. simpl figures. simpl warnings. simpl for_each.
  unfold bind at 1. unfold bind at 1.
  rewrite (combined_body_type_error mpl df column_name kw symbol_column
             datetime_column g x symbol_present datetime_present y v _ Hy Hkw).
  now rewrite app_nil_r.
Qed.

End CombinedBranch.

(** ** The whole function *)

Section Checked.

Variable mpl : Backend.
Variables (df : DataFrame) (column_name : string) (plot_kwargs : option Kwargs).
Variables (subplot_threshold : Z) (symbol_column datetime_column : string).

Lemma plot_column_unchecked (s : PltState) :
  has_column datetime_column df = false \/ has_column symbol_column df = false ->
  plot_column mpl df column_name plot_kwargs subplot_threshold symbol_column
              datetime_column s
  = (inl (ValueError missing_columns_message), s).
Proof.
  intros [H|H]; unfold plot_column; rewrite H; simpl;
    [|rewrite orb_true_r]; reflexivity.
Qed.

Lemma plot_column_checked (g : list Value) (s : PltState) :
  has_column datetime_column df = true ->
  getitem df symbol_column = Some g ->
  plot_column mpl df column_name plot_kwargs subplot_threshold symbol_column
              datetime_column s
  = (if len (unique g) >? subplot_threshold
     then grid_layout mpl df column_name (kwargs_or_empty plot_kwargs) symbol_column
                      datetime_column (unique g)
     else combined_layout mpl df column_name (kwargs_or_empty plot_kwargs)
                          symbol_column datetime_column (unique g)) s.
Proof.
  intros Hd Hg. unfold plot_column.
  assert (has_column symbol_column df = true) as ->
    by (apply has_column_getitem; now exists g).
  rewrite Hd. simpl. unfold column_of, bind. rewrite Hg. reflexivity.
Qed.

End Checked.

(** ** What the figures hold *)

Section GridFigure.

Variables (f : Value -> Axes -> Axes) (fresh : nat -> Axes).

Lemma paint_blank (l : list Value) :
  forall (k m : nat) (done : list Axes),
    List.length done = k ->
    (List.length l <= m)%nat ->
    paint f k l (done ++ map fresh (seq k m))
    = done
        ++ map (fun p => f (fst p) (fresh (snd p))) (combine l (seq k (List.length l)))
        ++ map fresh (seq (k + List.length l) (m - List.length l)).
Proof.
  induction l as [|v l IH]; intros k m done Hd Hm; simpl.
  - now rewrite Nat.add_0_r, Nat.sub_0_r.
  - destruct m as [|m]; simpl in Hm; [lia|]. simpl seq. simpl map.
    rewrite <- Hd, update_nth_app, Hd.
    change (done ++ f v (fresh k) :: map fresh (seq (S k) m))
      with (done ++ [f v (fresh k)] ++ map fresh (seq (S k) m)).
    rewrite app_assoc, IH by (rewrite ?length_app; simpl; lia).
    rewrite <- app_assoc. simpl. now rewrite Nat.add_succ_r.
Qed.

Lemma hide_blank (m : nat) :
  forall (lo : nat) (done : list Axes),
    List.length done = lo ->
    hide lo m (done ++ map fresh (seq lo m))
    = done ++ map (fun k => with_visible false (fresh k)) (seq lo m).
Proof.
  induction m as [|m IH]; intros lo done Hd; simpl.
  - reflexivity.
  - rewrite <- Hd, update_nth_app, Hd.
    change (done ++ with_visible false (fresh lo) :: map fresh (seq (S lo) m))
      with (done ++ [with_visible false (fresh lo)] ++ map fresh (seq (S lo) m)).
    rewrite app_assoc, IH by (rewrite length_app; simpl; lia).
    now rewrite <- app_assoc.
Qed.

Lemma paint_then_hide (l : list Value) (m : nat) :
  (List.length l <= m)%nat ->
  hide (List.length l) (m - List.length l) (paint f 0 l (map fresh (seq 0 m)))
  = map (fun p => f (fst p) (fresh (snd p))) (combine l (seq 0 (List.length l)))
      ++ map (fun k => with_visible false (fresh k))
             (seq (List.length l) (m - List.length l)).
Proof.
  intro Hm. pose proof (paint_blank l 0 m [] eq_refl Hm) as H.
  cbn [app Nat.add] in H. rewrite H. apply hide_blank.
  rewrite length_map, length_combine, length_seq. lia.
Qed.

End GridFigure.

Lemma filter_all {A : Type} (p : A -> bool) (l : list A) :
  Forall (fun a => p a = true) l -> filter p l = l.
Proof.
  induction 1 as [|a l Ha _ IH]; simpl; [reflexivity | now rewrite Ha, IH].
Qed.

Lemma filter_none {A : Type} (p : A -> bool) (l : list A) :
  Forall (fun a => p a = false) l -> filter p l = [].
Proof.
  induction 1 as [|a l Ha _ IH]; simpl; [reflexivity | now rewrite Ha, IH].
Qed.

Lemma concat_singletons {A : Type} (l : list A) :
  List.concat (map (fun a => [a]) l) = l.
Proof. induction l; simpl; congruence. Qed.

Lemma concat_nils {A B : Type} (l : list B) :
  List.concat (map (fun _ => @nil A) l) = [].
Proof. induction l; simpl; auto. Qed.

Lemma map_combine_fst {A B C : Type} (h : A -> C) (l : list A) (l' : list B) :
  List.length l = List.length l' ->
  map (fun p => h (fst p)) (combine l l') = map h l.
Proof.
  revert l'. induction l as [|a l IH]; intros [|b l'] H; simpl in *;
    try discriminate; [reflexivity|]. f_equal. apply IH. lia.
Qed.

Section GridFacts.

Variables (g x y : list Value) (kw : Kwargs) (column_name : string).
Variable l : list Value.
Hypothesis nonempty : l <> [].

Local Abbreviation G := (len l).
Local Abbreviation fig := (grid_figure g x y kw column_name l).

Lemma symbols_fit : (List.length l <= grid_cells G)%nat.
Proof.
  apply Nat2Z.inj_le. apply grid_cells_enough.
  unfold len. destruct l; simpl in *; [congruence | lia].
Qed.

Lemma grid_axes :
  fig_axes fig
  = map (fun p => panel_of g x y kw column_name (fst p)
                    (new_axes (n_rows G) (n_cols G) (snd p)))
        (combine l (seq 0 (List.length l)))
      ++ map (fun k => with_visible false (new_axes (n_rows G) (n_cols G) k))
             (seq (List.length l) (grid_cells G - List.length l)).
Proof.
  unfold grid_figure, blank_grid, new_figure. simpl fig_axes.
  apply paint_then_hide. apply symbols_fit.
Qed.

Lemma grid_axes_count : List.length (fig_axes fig) = grid_cells G.
Proof.
  pose proof symbols_fit. rewrite grid_axes.
  rewrite length_app, !length_map, length_combine, !length_seq. lia.
Qed.

Lemma grid_visible_axes :
  filter ax_visible (fig_axes fig)
  = map (fun p => panel_of g x y kw column_name (fst p)
                    (new_axes (n_rows G) (n_cols G) (snd p)))
        (combine l (seq 0 (List.length l))).
Proof.
  rewrite grid_axes, filter_app.
  rewrite filter_all, filter_none, app_nil_r; [reflexivity | |];
    apply Forall_map, Forall_forall; intros; reflexivity.
Qed.

Lemma grid_hidden_axes :
  filter (fun a => negb (ax_visible a)) (fig_axes fig)
  = map (fun k => with_visible false (new_axes (n_rows G) (n_cols G) k))
        (seq (List.length l) (grid_cells G - List.length l)).
Proof.
  rewrite grid_axes, filter_app.
  rewrite filter_none, filter_all; [reflexivity | |];
    apply Forall_map, Forall_forall; intros; reflexivity.
Qed.

Lemma grid_visible_count : visible_panels fig = List.length l.
Proof.
  unfold visible_panels. rewrite grid_visible_axes.
  rewrite length_map, length_combine, length_seq. lia.
Qed.

Lemma grid_hidden_count :
  hidden_panels fig = (grid_cells G - List.length l)%nat.
Proof.
  unfold hidden_panels. rewrite grid_hidden_axes.
  now rewrite length_map, length_seq.
Qed.

Lemma grid_geometry :
  Forall (fun a => fst (ax_geometry a) = (n_rows G, n_cols G)) (fig_axes fig).
Proof.
  rewrite grid_axes. apply Forall_app. split;
    apply Forall_map, Forall_forall; intros; reflexivity.
Qed.

Lemma grid_visibility (k : nat) (a : Axes) :
  nth_error (fig_axes fig) k = Some a ->
  ax_visible a = (k <? List.length l)%nat.
Proof.
  rewrite grid_axes. intro H.
  assert (List.length (map (fun p => panel_of g x y kw column_name (fst p)
                    (new_axes (n_rows G) (n_cols G) (snd p)))
        (combine l (seq 0 (List.length l)))) = List.length l) as Hlen
    by (rewrite length_map, length_combine, length_seq; lia).
  destruct (Nat.ltb_spec k (List.length l)) as [Hk|Hk].
  - rewrite nth_error_app1 in H by lia.
    rewrite nth_error_map in H.
    destruct (nth_error (combine l (seq 0 (List.length l))) k); simpl in H;
      [now inversion H | discriminate].
  - rewrite nth_error_app2 in H by lia.
    rewrite nth_error_map in H.
    destruct (nth_error (seq (List.length l) (grid_cells G - List.length l))
                        (k - _)); simpl in H; [now inversion H | discriminate].
Qed.

Lemma grid_panel_lines :
  map ax_lines (filter ax_visible (fig_axes fig))
  = map (fun v => [mkLine (select (mask_of g v) x) (select (mask_of g v) y) None kw]) l.
Proof.
  rewrite grid_visible_axes, map_map. simpl.
  apply (map_combine_fst
           (fun v => [mkLine (select (mask_of g v) x) (select (mask_of g v) y) None kw])).
  now rewrite length_seq.
Qed.

Lemma grid_panel_titles :
  map ax_title (filter ax_visible (fig_axes fig))
  = map (fun v => Some (format_value v, 15)) l.
Proof.
  rewrite grid_visible_axes, map_map. simpl.
  apply (map_combine_fst (fun v => Some (format_value v, 15))).
  now rewrite length_seq.
Qed.

Lemma grid_all_lines :
  all_lines fig
  = map (fun v => mkLine (select (mask_of g v) x) (select (mask_of g v) y) None kw) l.
Proof.
  unfold all_lines. rewrite grid_axes, map_app, concat_app, !map_map. simpl.
  rewrite concat_nils, app_nil_r.
  rewrite (map_combine_fst
             (fun v => [mkLine (select (mask_of g v) x) (select (mask_of g v) y) None kw]))
    by now rewrite length_seq.
  rewrite <- (map_map (fun v => mkLine (select (mask_of g v) x)
                                       (select (mask_of g v) y) None kw)
                      (fun ln => [ln])).
  apply concat_singletons.
Qed.

End GridFacts.

Section CombinedFacts.

Variables (g x y : list Value) (kw : Kwargs) (column_name : string).

Lemma draw_lines_lines (l : list Value) (a : Axes) :
  ax_lines (draw_lines g x y kw l a) = ax_lines a ++ map (line_of g x y kw) l.
Proof.
  unfold draw_lines. revert a. induction l as [|v l IH]; intro a; simpl.
  - now rewrite app_nil_r.
  - rewrite IH. simpl. now rewrite <- app_assoc.
Qed.

Lemma combined_all_lines (l : list Value) :
  all_lines (combined_figure g x y kw column_name l) = map (line_of g x y kw) l.
Proof.
  unfold all_lines, combined_figure. simpl.
  now rewrite draw_lines_lines, app_nil_r.
Qed.

Lemma combined_single_axes (l : list Value) :
  exists a,
    fig_axes (combined_figure g x y kw column_name l) = [a]
    /\ ax_lines a = map (line_of g x y kw) l
    /\ ax_visible a = true.
Proof.
  eexists. split; [reflexivity|]. split.
  - simpl. now rewrite draw_lines_lines.
  - simpl. unfold draw_lines.
    generalize (new_axes 1 1 0) (eq_refl : ax_visible (new_axes 1 1 0) = true).
    induction l as [|v l IH]; intros a Ha; simpl; [assumption|].
    now apply IH.
Qed.

End CombinedFacts.

(** ** Rows behind a series *)

Lemma select_points (g x y : list Value) (v : Value) :
  combine (select (mask_of g v) x) (select (mask_of g v) y) = points_of g x y v.
Proof.
  unfold points_of, rows_of, mask_of.
  revert x y. induction g as [|c g IH]; intros x y; simpl; [reflexivity|].
  destruct x as [|a x]; [reflexivity|].
  destruct y as [|b y]; simpl.
  - destruct (value_eqb c v); simpl; now rewrite ?combine_nil.
  - destruct (value_eqb c v); simpl; now rewrite IH.
Qed.

Lemma select_length (g x : list Value) (v : Value) :
  List.length x = List.length g ->
  List.length (select (mask_of g v) x)
  = List.length (filter (fun c => value_eqb c v) g).
Proof.
  unfold mask_of. revert x. induction g as [|c g IH]; intros x H; simpl.
  - reflexivity.
  - destruct x as [|a x]; simpl in H; [discriminate|].
    destruct (value_eqb c v); simpl; rewrite IH by lia; reflexivity.
Qed.

Lemma well_formed_getitem (df : DataFrame) (n : nat) (name : string) (c : list Value) :
  well_formed df n -> getitem df name = Some c -> List.length c = n.
Proof.
  unfold well_formed. induction 1 as [|[m col] df Hm _ IH]; simpl; [discriminate|].
  destruct (String.eqb name m); [|exact IH].
  intro E. inversion E. now subst.
Qed.

(** ** Order of [unique] *)

Lemma first_index_In (v : Value) (col : list Value) :
  In v col -> exists p, first_index v col = Some p.
Proof.
  induction col as [|c col IH]; simpl; [tauto|].
  intros [->|H].
  - rewrite value_eqb_refl. now exists 0%nat.
  - destruct (value_eqb c v); [now exists 0%nat|].
    destruct (IH H) as [p ->]. now exists (S p).
Qed.

Lemma unique_from_order (col : list Value) :
  forall seen, first_seen_order col (unique_from seen col).
Proof.
  induction col as [|c col IH]; intros seen i j a b Hij Ha Hb; simpl in *.
  - destruct i; discriminate.
  - destruct (contains c seen) eqn:E.
    + apply contains_In in E.
      assert (c <> a) as Hca.
      { apply nth_error_In in Ha. apply unique_from_In in Ha. intros ->. tauto. }
      assert (c <> b) as Hcb.
      { apply nth_error_In in Hb. apply unique_from_In in Hb. intros ->. tauto. }
      destruct (IH seen i j a b Hij Ha Hb) as [p [q [Hp [Hq Hpq]]]].
      exists (S p), (S q).
      destruct (value_eqb c a) eqn:Ea; [apply value_eqb_eq in Ea; contradiction|].
      destruct (value_eqb c b) eqn:Eb; [apply value_eqb_eq in Eb; contradiction|].
      rewrite Hp, Hq. simpl. repeat split; lia.
    + destruct j as [|j]; [lia|]. simpl in Hb.
      assert (c <> b) as Hcb.
      { apply nth_error_In in Hb. apply unique_from_In in Hb. simpl in Hb.
        intros ->. tauto. }
      destruct (value_eqb c b) eqn:Eb; [apply value_eqb_eq in Eb; contradiction|].
      destruct i as [|i]; simpl in Ha.
      * inversion Ha. subst a. rewrite value_eqb_refl.
        assert (In b col) as Hin
          by (apply nth_error_In in Hb; apply unique_from_In in Hb; tauto).
        destruct (first_index_In b col Hin) as [q ->].
        exists 0%nat, (S q). repeat split. lia.
      * assert (c <> a) as Hca.
        { apply nth_error_In in Ha. apply unique_from_In in Ha. simpl in Ha.
          intros ->. tauto. }
        destruct (value_eqb c a) eqn:Ea; [apply value_eqb_eq in Ea; contradiction|].
        destruct (IH (c :: seen) i j a b ltac:(lia) Ha Hb) as [p [q [Hp [Hq Hpq]]]].
        exists (S p), (S q). rewrite Hp, Hq. simpl. repeat split; lia.
Qed.

Lemma unique_order (col : list Value) : first_seen_order col (unique col).
Proof. apply unique_from_order. Qed.

(** ** Every call, on every store *)

Section Frame.

Variable mpl : Backend.
Variables (df : DataFrame) (column_name : string) (plot_kwargs : option Kwargs).
Variables (subplot_threshold : Z) (symbol_column datetime_column : string).

Local Abbreviation call :=
  (plot_column mpl df column_name plot_kwargs subplot_threshold symbol_column
               datetime_column).

Lemma extend_nothing (s : PltState) : extend s [] [] = s.
Proof. destruct s. unfold extend. simpl. now rewrite !app_nil_r. Qed.

Lemma grid_layout_frame (g x : list Value) (l : list Value) :
  getitem df symbol_column = Some g ->
  getitem df datetime_column = Some x ->
  exists r figs,
    forall s,
      grid_layout mpl df column_name (kwargs_or_empty plot_kwargs) symbol_column
                  datetime_column l s
      = (r, extend s figs [warning_message (len l)]).
Proof.
  intros Hg Hx. destruct l as [|v l'] eqn:El.
  - do 2 eexists. intro s. apply grid_layout_zero.
  - destruct (getitem df column_name) as [y|] eqn:Hy.
    + destruct (paint_until mpl g x y (kwargs_or_empty plot_kwargs) column_name 0
                  (v :: l') (fig_axes (blank_grid (len (v :: l'))))) as [[e|] axs] eqn:Ep.
      * do 2 eexists. intro s.
        rewrite (grid_layout_run mpl df column_name _ symbol_column datetime_column
                   g x Hg Hx (v :: l') y s Hy) by discriminate.
        rewrite Ep. reflexivity.
      * do 2 eexists. intro s.
        rewrite (grid_layout_run mpl df column_name _ symbol_column datetime_column
                   g x Hg Hx (v :: l') y s Hy) by discriminate.
        rewrite Ep. reflexivity.
    + do 2 eexists. intro s.
      apply (grid_layout_key_error mpl df column_name _ symbol_column datetime_column
               g x Hg Hx (v :: l') s Hy). discriminate.
Qed.

Lemma combined_layout_frame (g x : list Value) (l : list Value) :
  getitem df symbol_column = Some g ->
  getitem df datetime_column = Some x ->
  exists r figs,
    forall s,
      combined_layout mpl df column_name (kwargs_or_empty plot_kwargs) symbol_column
                      datetime_column l s
      = (r, extend s figs []).
Proof.
  intros Hg Hx. destruct l as [|v l'] eqn:El.
  - do 2 eexists. intro s.
    apply (combined_layout_empty mpl df column_name _ symbol_column datetime_column
             g x [] [] s eq_refl).
  - destruct (getitem df column_name) as [y|] eqn:Hy.
    + destruct (has_key "label" (kwargs_or_empty plot_kwargs)) eqn:Hkw.
      * do 2 eexists. intro s.
        apply (combined_layout_type_error mpl df column_name _ symbol_column
                 datetime_column g x Hg Hx (v :: l') y s Hy Hkw). discriminate.
      * destruct (draw_until mpl g x y (kwargs_or_empty plot_kwargs) (v :: l')
                    (new_axes 1 1 0)) as [[e|] a] eqn:Ed.
        -- do 2 eexists. intro s.
           rewrite (combined_layout_run mpl df column_name _ symbol_column
                      datetime_column g x Hg Hx (v :: l') y s Hy Hkw) by discriminate.
           rewrite Ed. reflexivity.
        -- do 2 eexists. intro s.
           rewrite (combined_layout_run mpl df column_name _ symbol_column
                      datetime_column g x Hg Hx (v :: l') y s Hy Hkw) by discriminate.
           rewrite Ed. reflexivity.
    + do 2 eexists. intro s.
      apply (combined_layout_key_error mpl df column_name _ symbol_column
               datetime_column g x Hg Hx (v :: l') s Hy). discriminate.
Qed.

(** A call that passes the column check adds to the store figures and
    warnings that depend on the arguments only. *)
Lemma plot_column_frame (g : list Value) :
  has_column datetime_column df = true ->
  getitem df symbol_column = Some g ->
  exists r figs,
    forall s,
      call s
      = (r, extend s figs
              (if len (unique g) >? subplot_threshold
               then [warning_message (len (unique g))] else [])).
Proof.
  intros Hd Hg.
  destruct (proj1 (has_column_getitem df datetime_column) Hd) as [x Hx].
  destruct (len (unique g) >? subplot_threshold) eqn:E.
  - destruct (grid_layout_frame g x (unique g) Hg Hx) as [r [figs H]].
    exists r, figs. intro s.
    rewrite (plot_column_checked _ _ _ _ _ _ _ g s Hd Hg), E. apply H.
  - destruct (combined_layout_frame g x (unique g) Hg Hx) as [r [figs H]].
    exists r, figs. intro s.
    rewrite (plot_column_checked _ _ _ _ _ _ _ g s Hd Hg), E. apply H.
Qed.

Lemma plot_column_frame_any :
  exists r figs ws, forall s, call s = (r, extend s figs ws).
Proof.
  destruct (has_column datetime_column df) eqn:Hd.
  - destruct (getitem df symbol_column) as [g|] eqn:Hg.
    + destruct (plot_column_frame g Hd Hg) as [r [figs H]].
      exists r, figs. eexists. exact H.
    + exists (inl (ValueError missing_columns_message)), [], []. intro s.
      rewrite extend_nothing. apply plot_column_unchecked. right.
      now apply has_column_false.
  - exists (inl (ValueError missing_columns_message)), [], []. intro s.
    rewrite extend_nothing. apply plot_column_unchecked. now left.
Qed.

(** The two branches never do the same thing: only the grid branch logs. *)
Lemma layouts_differ (g x l : list Value) (s : PltState) :
  getitem df symbol_column = Some g ->
  getitem df datetime_column = Some x ->
  grid_layout mpl df column_name (kwargs_or_empty plot_kwargs) symbol_column
              datetime_column l s
  <> combined_layout mpl df column_name (kwargs_or_empty plot_kwargs) symbol_column
                     datetime_column l s.
Proof.
  intros Hg Hx E.
  destruct (grid_layout_frame g x l Hg Hx) as [r1 [f1 H1]].
  destruct (combined_layout_frame g x l Hg Hx) as [r2 [f2 H2]].
  rewrite H1, H2 in E. inversion E as [[Hr Hf Hw]].
  apply app_inv_head in Hw. discriminate.
Qed.

(** What a call that passes the column check and finds the metric column
    leaves behind when the backend takes every line; in the combined layout
    the draw options must leave the [label] keyword to the function. *)
Lemma plot_column_drawn (g x y : list Value) :
  getitem df symbol_column = Some g ->
  getitem df datetime_column = Some x ->
  getitem df column_name = Some y ->
  (len (unique g) <= subplot_threshold ->
   has_key "label" (kwargs_or_empty plot_kwargs) = false) ->
  draws_accepted mpl g x y (kwargs_or_empty plot_kwargs) subplot_threshold ->
  forall s,
    call s
    = if len (unique g) >? subplot_threshold
      then match unique g with
           | [] => (inl ZeroDivisionError, extend s [] [warning_message 0])
           | _ :: _ =>
               (inr tt,
                extend s [grid_figure g x y (kwargs_or_empty plot_kwargs)
                                      column_name (unique g)]
                       [warning_message (len (unique g))])
           end
      else (inr tt,
            extend s [combined_figure g x y (kwargs_or_empty plot_kwargs)
                                      column_name (unique g)] []).
Proof.
  intros Hg Hx Hy Hkw Hacc s.
  assert (has_column datetime_column df = true) as Hd
    by (apply has_column_getitem; now exists x).
  rewrite (plot_column_checked _ _ _ _ _ _ _ g s Hd Hg).
  unfold draws_accepted in Hacc.
  destruct (len (unique g) >? subplot_threshold) eqn:E.
  - destruct (unique g) as [|v l'] eqn:El.
    + apply grid_layout_zero.
    + apply (grid_layout_ok mpl df column_name _ symbol_column datetime_column g x
               Hg Hx (v :: l') y s Hy); [discriminate | exact Hacc].
  - apply (combined_layout_ok mpl df column_name _ symbol_column datetime_column g x
             Hg Hx (unique g) y s Hy); [|exact Hacc].
    apply Hkw. destruct (Z.gtb_spec (len (unique g)) subplot_threshold);
      [discriminate | assumption].
Qed.

(** Every path of a call that passes the column check. *)
Lemma plot_column_summary (g x : list Value) (s : PltState) :
  getitem df symbol_column = Some g ->
  getitem df datetime_column = Some x ->
  call s
  = (fst (fst (run_summary mpl df column_name (kwargs_or_empty plot_kwargs)
                           subplot_threshold g x)),
     extend s
       (snd (fst (run_summary mpl df column_name (kwargs_or_empty plot_kwargs)
                              subplot_threshold g x)))
       (snd (run_summary mpl df column_name (kwargs_or_empty plot_kwargs)
                         subplot_threshold g x))).
Proof.
  intros Hg Hx.
  assert (has_column datetime_column df = true) as Hd
    by (apply has_column_getitem; now exists x).
  rewrite (plot_column_checked _ _ _ _ _ _ _ g s Hd Hg). unfold run_summary.
  cbv zeta.
  destruct (len (unique g) >? subplot_threshold).
  - destruct (unique g) as [|v l'] eqn:El.
    + apply grid_layout_zero.
    + destruct (getitem df column_name) as [y|] eqn:Hy.
      * rewrite (grid_layout_run mpl df column_name _ symbol_column datetime_column
                   g x Hg Hx (v :: l') y s Hy) by discriminate.
        destruct (paint_until mpl g x y (kwargs_or_empty plot_kwargs) column_name 0
                    (v :: l') (fig_axes (blank_grid (len (v :: l'))))) as [[e|] axs];
          reflexivity.
      * apply (grid_layout_key_error mpl df column_name _ symbol_column datetime_column
                 g x Hg Hx (v :: l') s Hy). discriminate.
  - destruct (unique g) as [|v l'] eqn:El.
    + apply (combined_layout_empty mpl df column_name _ symbol_column datetime_column
               [] [] [] [] s eq_refl).
    + destruct (getitem df column_name) as [y|] eqn:Hy.
      * destruct (has_key "label" (kwargs_or_empty plot_kwargs)) eqn:Hkw.
        -- apply (combined_layout_type_error mpl df column_name _ symbol_column
                    datetime_column g x Hg Hx (v :: l') y s Hy Hkw). discriminate.
        -- rewrite (combined_layout_run mpl df column_name _ symbol_column
                      datetime_column g x Hg Hx (v :: l') y s Hy Hkw) by discriminate.
           destruct (draw_until mpl g x y (kwargs_or_empty plot_kwargs) (v :: l')
                       (new_axes 1 1 0)) as [[e|] a]; reflexivity.
      * apply (combined_layout_key_error mpl df column_name _ symbol_column
                 datetime_column g x Hg Hx (v :: l') s Hy). discriminate.
Qed.

End Frame.

(** ** Text of the messages *)

Lemma prefix_app (a b : string) : String.prefix a (a ++ b)%string = true.
Proof.
  induction a as [|c a IH]; simpl.
  - now destruct b.
  - destruct (ascii_dec c c) as [_|N]; [exact IH | now elim N].
Qed.

Lemma occurs_in_app (needle before after : string) :
  occurs_in needle (before ++ needle ++ after)%string = true.
Proof.
  induction before as [|c before IH]; simpl.
  - destruct (needle ++ after)%string as [|c rest] eqn:E.
    + destruct needle; [reflexivity | discriminate].
    + cbn [occurs_in]. rewrite <- E, prefix_app. reflexivity.
  - cbn [occurs_in] in *. rewrite IH. apply orb_true_r.
Qed.

(** ** The loop variable after the loop *)

Lemma for_enumerate_index {A : Type} (body : nat -> A -> M unit) (l : list A) :
  forall (k : nat) (before : option nat) (s s' : PltState) (r : option nat),
    for_enumerate body k l before s = (inr r, s') ->
    r = last_index k l before.
Proof.
  induction l as [|a l IH]; intros k before s s' r H; simpl in H.
  - now inversion H.
  - unfold bind in H. destruct (body k a s) as [[e|u] s1]; [discriminate|].
    apply IH in H. subst r.
    destruct l; simpl; apply f_equal; lia.
Qed.

(** ** Series, symbol by symbol *)

Section Series.

Variables (g x y : list Value) (kw : Kwargs) (label : Value -> option Value).

Local Abbreviation series v :=
  (mkLine (select (mask_of g v) x) (select (mask_of g v) y) (label v) kw).

Lemma series_points (l : list Value) :
  map line_points (map (fun v => series v) l) = map (points_of g x y) l.
Proof.
  rewrite map_map. apply map_ext. intro v. apply select_points.
Qed.

Lemma series_data (l : list Value) :
  map (fun ln => (line_x ln, line_y ln)) (map (fun v => series v) l)
  = map (fun v => (select (mask_of g v) x, select (mask_of g v) y)) l.
Proof. now rewrite map_map. Qed.

Lemma series_labels (l : list Value) :
  map line_label (map (fun v => series v) l) = map label l.
Proof. now rewrite map_map. Qed.

Lemma series_balanced (l : list Value) :
  List.length x = List.length g ->
  List.length y = List.length g ->
  Forall (fun ln => List.length (line_x ln) = List.length (line_y ln))
         (map (fun v => series v) l).
Proof.
  intros Hx Hy. apply Forall_map, Forall_forall. intros v _. simpl.
  now rewrite !select_length.
Qed.

End Series.

(** * The claims *)

(** C1.  When the configured time column or the configured symbol column is
    not among the frame's columns, the call fails with the missing-column
    error ([ValueError] in the source) and the store it returns is the store
    it was given: nothing was drawn, nothing logged, and nothing else done
    before the check. *)
Theorem C1_missing_column_fails_first
    (mpl : Backend) (df : DataFrame) (column_name : string)
    (plot_kwargs : option Kwargs) (subplot_threshold : Z)
    (symbol_column datetime_column : string) (s : PltState) :
  has_column datetime_column df = false \/ has_column symbol_column df = false ->
  plot_column mpl df column_name plot_kwargs subplot_threshold symbol_column
              datetime_column s
  = (inl (ValueError missing_columns_message), s).
Proof.
  intros [H|H]; unfold plot_column; rewrite H.
  - reflexivity.
  - now rewrite orb_true_r.
Qed.

Lemma C1_witness :
  (has_column "datetime" two_symbols = false \/ has_column "ticker" two_symbols = false)
  /\ plot_column accept_all two_symbols "price" None 10 "ticker" "datetime" empty_state
     = (inl (ValueError missing_columns_message), empty_state).
Proof.
  split.
  - right. reflexivity.
  - apply (C1_missing_column_fails_first accept_all two_symbols "price" None 10 "ticker"
             "datetime" empty_state).
    right. reflexivity.
Defined.

(** C2.  For a frame that passes the column check, with [G] distinct symbols
    and threshold [T]: the call runs the grid layout if and only if [G > T],
    and the combined layout if and only if [G <= T]; at [G = T] it is the
    combined layout.  [G] counts each value of the symbol column once. *)
Theorem C2_layout_choice
    (mpl : Backend) (df : DataFrame) (column_name : string)
    (plot_kwargs : option Kwargs) (subplot_threshold : Z)
    (symbol_column datetime_column : string)
    (g : list Value) :
  has_column datetime_column df = true ->
  getitem df symbol_column = Some g ->
  (runs_as mpl Grid df column_name plot_kwargs subplot_threshold symbol_column
           datetime_column (unique g)
   <-> len (unique g) > subplot_threshold)
  /\ (runs_as mpl Combined df column_name plot_kwargs subplot_threshold symbol_column
              datetime_column (unique g)
      <-> len (unique g) <= subplot_threshold)
  /\ (len (unique g) = subplot_threshold ->
      runs_as mpl Combined df column_name plot_kwargs subplot_threshold symbol_column
              datetime_column (unique g))
  /\ NoDup (unique g)
  /\ (forall v, In v (unique g) <-> In v g).
Proof.
  intros Hd Hg.
  destruct (proj1 (has_column_getitem df datetime_column) Hd) as [x Hx].
  assert (len (unique g) > subplot_threshold ->
          runs_as mpl Grid df column_name plot_kwargs subplot_threshold symbol_column
                  datetime_column (unique g)) as Hgrid.
  { intros H s. rewrite (plot_column_checked _ _ _ _ _ _ _ g s Hd Hg).
    destruct (Z.gtb_spec (len (unique g)) subplot_threshold); [reflexivity | lia]. }
  assert (len (unique g) <= subplot_threshold ->
          runs_as mpl Combined df column_name plot_kwargs subplot_threshold symbol_column
                  datetime_column (unique g)) as Hcomb.
  { intros H s. rewrite (plot_column_checked _ _ _ _ _ _ _ g s Hd Hg).
    destruct (Z.gtb_spec (len (unique g)) subplot_threshold); [lia | reflexivity]. }
  repeat split.
  - intro R. destruct (Z.gtb_spec (len (unique g)) subplot_threshold) as [E|E]; [lia|].
    exfalso. specialize (R empty_state). rewrite (Hcomb E empty_state) in R.
    symmetry in R. revert R. now apply (layouts_differ _ _ _ _ _ _ g x).
  - exact Hgrid.
  - intro R. destruct (Z.gtb_spec (len (unique g)) subplot_threshold) as [E|E]; [|lia].
    exfalso. specialize (R empty_state).
    rewrite (Hgrid ltac:(lia) empty_state) in R.
    revert R. now apply (layouts_differ _ _ _ _ _ _ g x).
  - exact Hcomb.
  - intro E. apply Hcomb. lia.
  - apply unique_NoDup.
  - apply unique_In.
  - apply unique_In.
Qed.

Lemma C2_witness :
  len (unique [VStr "MSFT"; VStr "AAPL"; VStr "MSFT"; VStr "AAPL"]) = 2
  /\ runs_as accept_all Combined two_symbols "price" None 2 "symbol" "datetime"
             (unique [VStr "MSFT"; VStr "AAPL"; VStr "MSFT"; VStr "AAPL"]).
Proof.
  split; [reflexivity|].
  apply (C2_layout_choice accept_all two_symbols "price" None 2 "symbol" "datetime"
           [VStr "MSFT"; VStr "AAPL"; VStr "MSFT"; VStr "AAPL"]
           eq_refl eq_refl).
  reflexivity.
Defined.













(** C8.  The outcome of a call (a return, or the exception raised) and the
    figures and warnings it adds to the ambient store depend on the arguments
    alone, not on the store the call starts from.  So two calls in a row with
    the same arguments end the same way and add the same figures: the same
    layout, the same panels and lines, the same titles and labels. *)
Theorem C8_same_inputs_same_chart
    (mpl : Backend) (df : DataFrame) (column_name : string)
    (plot_kwargs : option Kwargs) (subplot_threshold : Z)
    (symbol_column datetime_column : string) :
  exists r figs ws,
    forall s : PltState,
      plot_column mpl df column_name plot_kwargs subplot_threshold symbol_column
                  datetime_column s
      = (r, extend s figs ws)
      /\ plot_column mpl df column_name plot_kwargs subplot_threshold symbol_column
                     datetime_column (extend s figs ws)
         = (r, extend (extend s figs ws) figs ws).
Proof.
  destruct (plot_column_frame_any mpl df column_name plot_kwargs subplot_threshold
              symbol_column datetime_column) as [r [figs [ws H]]].
  exists r, figs, ws. intro s. split; apply H.
Qed.

(** C9, as the code has it.  When the grid layout is chosen for a frame with
    no symbol at all, which needs a negative threshold, the call logs the
    warning and then fails on the row count, a division by the column count
    [min(3, 0) = 0]: no grid is allocated, neither loop is reached, and the
    error is not the missing-column error. *)
Theorem C9_no_symbols_division_by_zero
    (mpl : Backend) (df : DataFrame) (column_name : string)
    (plot_kwargs : option Kwargs) (subplot_threshold : Z)
    (symbol_column datetime_column : string)
    (g : list Value) (s : PltState) :
  has_column datetime_column df = true ->
  getitem df symbol_column = Some g ->
  unique g = [] ->
  len (unique g) > subplot_threshold ->
  subplot_threshold < 0
  /\ plot_column mpl df column_name plot_kwargs subplot_threshold symbol_column
                 datetime_column s
     = (inl ZeroDivisionError, extend s [] [warning_message 0])
  /\ (forall msg, ZeroDivisionError <> ValueError msg).
Proof.
  intros Hd Hg Hu HT. rewrite Hu in HT. unfold len in HT. simpl in HT.
  split; [lia|]. split; [|discriminate].
  rewrite (plot_column_checked _ _ _ _ _ _ _ g s Hd Hg), Hu.
  destruct (Z.gtb_spec (len (@nil Value)) subplot_threshold) as [E|E].
  - apply grid_layout_zero.
  - unfold len in E. simpl in E. lia.
Qed.

Lemma C9_witness :
  plot_column accept_all (numbered 0) "price" None (-1) "symbol" "datetime" empty_state
  = (inl ZeroDivisionError, extend empty_state [] [warning_message 0]).
Proof.
  apply (C9_no_symbols_division_by_zero accept_all (numbered 0) "price" None (-1) "symbol"
           "datetime" [] empty_state eq_refl eq_refl eq_refl eq_refl).
Defined.

(** C9, as stated, fails: with no symbol and threshold -1 the call does not
    end on the unbound loop variable of the hide step. *)
Lemma C9_counterexample :
  len (unique (@nil Value)) > -1
  /\ fst (plot_column accept_all (numbered 0) "price" None (-1) "symbol" "datetime" empty_state)
     = inl ZeroDivisionError
  /\ fst (plot_column accept_all (numbered 0) "price" None (-1) "symbol" "datetime" empty_state)
     <> inl (UnboundLocalError "i").
Proof.
  split; [reflexivity|]. split; [reflexivity | discriminate].
Qed.

(** C10.  Whatever names the caller configured for the time and symbol
    columns, a frame that fails the column check gets the one fixed message,
    which names ['datetime'] and ['symbol']. *)
Theorem C10_message_names_default_columns
    (mpl : Backend) (df : DataFrame) (column_name : string)
    (plot_kwargs : option Kwargs) (subplot_threshold : Z)
    (symbol_column datetime_column : string) (s : PltState) :
  has_column datetime_column df = false \/ has_column symbol_column df = false ->
  exists msg,
    fst (plot_column mpl df column_name plot_kwargs subplot_threshold symbol_column
                     datetime_column s)
    = inl (ValueError msg)
    /\ msg = "DataFrame must have 'datetime' and 'symbol' columns"%string
    /\ occurs_in "'datetime'" msg = true
    /\ occurs_in "'symbol'" msg = true.
Proof.
  intro H. exists missing_columns_message.
  rewrite plot_column_unchecked by assumption.
  repeat split.
Qed.

Lemma C10_witness :
  (has_column "ts" two_symbols = false \/ has_column "ticker" two_symbols = false)
  /\ occurs_in "ticker" missing_columns_message = false
  /\ occurs_in "ts" missing_columns_message = false
  /\ exists msg,
       fst (plot_column accept_all two_symbols "price" None 10 "ticker" "ts" empty_state)
       = inl (ValueError msg)
       /\ msg = "DataFrame must have 'datetime' and 'symbol' columns"%string
       /\ occurs_in "'datetime'" msg = true
       /\ occurs_in "'symbol'" msg = true.
Proof.
  split; [left; reflexivity|]. split; [reflexivity|]. split; [reflexivity|].
  apply (C10_message_names_default_columns accept_all two_symbols "price" None 10 "ticker" "ts"
           empty_state).
  left. reflexivity.
Defined.

(** * Further properties of [plot_column] *)

(** ** Every path of a call that passes the column check *)

Lemma unique_nil (g : list Value) : unique g = [] <-> g = [].
Proof.
  split; [|intros ->; reflexivity].
  destruct g as [|c g]; [reflexivity|]. intro H.
  assert (In c (unique (c :: g))) as Hin by (apply unique_In; now left).
  rewrite H in Hin. destruct Hin.
Qed.

Lemma blank_grid_lines (G : Z) : all_lines (blank_grid G) = [].
Proof.
  unfold all_lines, blank_grid, new_figure. simpl fig_axes.
  rewrite map_map. simpl. apply concat_nils.
Qed.

Lemma blank_grid_hidden (G : Z) : hidden_panels (blank_grid G) = 0%nat.
Proof.
  unfold hidden_panels, blank_grid, new_figure. simpl fig_axes.
  rewrite filter_none; [reflexivity|].
  apply Forall_map, Forall_forall. intros; reflexivity.
Qed.

Lemma blank_grid_visible (G : Z) : visible_panels (blank_grid G) = grid_cells G.
Proof.
  unfold visible_panels, blank_grid, new_figure. simpl fig_axes.
  rewrite filter_all.
  - now rewrite length_map, length_seq.
  - apply Forall_map, Forall_forall. intros; reflexivity.
Qed.

(** ** How a call ends *)

Lemma accepted_no_refusal (mpl : Backend) (g x y : list Value) (kw : Kwargs)
    (column_name : string) (subplot_threshold : Z) :
  unique g <> [] ->
  draws_accepted mpl g x y kw subplot_threshold ->
  first_refusal mpl g x y kw column_name subplot_threshold = None.
Proof.
  intros Hne Hacc. unfold draws_accepted in Hacc. unfold first_refusal.
  destruct (len (unique g) >? subplot_threshold).
  - unfold blank_grid, new_figure. simpl fig_axes.
    pose proof (paint_until_accepted mpl g x y kw column_name
                  (new_axes (n_rows (len (unique g))) (n_cols (len (unique g))))
                  (unique g) 0 (grid_cells (len (unique g))) [] eq_refl
                  (symbols_have_room (unique g) Hne) Hacc) as H.
    cbn [app] in H. now rewrite H.
  - now rewrite (draw_until_accepted mpl g x y kw (unique g) (new_axes 1 1 0) Hacc).
Qed.





(** ** What a failing call leaves in the store *)



(** ** The chart of each layout *)

(** X4.  On a frame that passes the column check and has no rows, a call
    with a non-negative threshold returns, whether or not the metric column
    exists: it leaves one 10 by 6 figure whose single axes has no line but
    carries the chart title, both axis labels, the grid, the legend and the
    rotated ticks. *)
Theorem X4_empty_frame_gives_an_empty_chart
    (mpl : Backend) (df : DataFrame) (column_name : string)
    (plot_kwargs : option Kwargs) (subplot_threshold : Z)
    (symbol_column datetime_column : string)
    (s : PltState) :
  has_column datetime_column df = true ->
  getitem df symbol_column = Some [] ->
  0 <= subplot_threshold ->
  exists a,
    plot_column mpl df column_name plot_kwargs subplot_threshold symbol_column
                datetime_column s
    = (inr tt, extend s [mkFigure (Inches 10 6) [a] None true] [])
    /\ ax_lines a = []
    /\ ax_title a = Some (chart_title column_name, 15)
    /\ ax_xlabel a = Some ("Date"%string, 10)
    /\ ax_ylabel a = Some (column_name, 10)
    /\ ax_grid a = true
    /\ ax_legend a = Some ((105, 100), "upper left"%string)
    /\ ax_xtick_rotation a = Some 45
    /\ ax_visible a = true.
Proof.
  intros Hd Hg HT.
  destruct (proj1 (has_column_getitem df datetime_column) Hd) as [x Hx].
  rewrite (plot_column_summary mpl df column_name plot_kwargs subplot_threshold
             symbol_column datetime_column [] x s Hg Hx).
  unfold run_summary. cbv zeta. simpl unique. unfold len. simpl List.length.
  destruct (Z.gtb_spec (Z.of_nat 0) subplot_threshold) as [E|E]; [lia|].
  cbn [fst snd]. eexists. split; [reflexivity|]. repeat split.
Qed.

Lemma X4_witness :
  exists a,
    plot_column accept_all (without_price 0) "price" None 10 "symbol" "datetime" empty_state
    = (inr tt, extend empty_state [mkFigure (Inches 10 6) [a] None true] [])
    /\ ax_lines a = []
    /\ ax_title a = Some ("`price` Over Time by Symbol"%string, 15).
Proof.
  destruct (X4_empty_frame_gives_an_empty_chart accept_all (without_price 0) "price" None 10
              "symbol" "datetime" empty_state eq_refl eq_refl ltac:(lia))
    as [a [Hrun [Hlines [Htitle _]]]].
  exists a. split; [exact Hrun|]. split; [exact Hlines | exact Htitle].
Defined.

Lemma draw_lines_keeps (g x y : list Value) (kw : Kwargs) (l : list Value) (a : Axes) :
  ax_geometry (draw_lines g x y kw l a) = ax_geometry a
  /\ ax_visible (draw_lines g x y kw l a) = ax_visible a.
Proof.
  unfold draw_lines. revert a. induction l as [|v l IH]; intro a; simpl.
  - now split.
  - destruct (IH (add_line (line_of g x y kw v) a)) as [H1 H2]. now split.
Qed.



Lemma nth_error_combine_seq {A : Type} (l : list A) :
  forall (k start : nat) (v : A),
    nth_error l k = Some v ->
    nth_error (combine l (seq start (List.length l))) k = Some (v, (start + k)%nat).
Proof.
  induction l as [|a l IH]; intros [|k] start v H; simpl in *; try discriminate.
  - inversion H. now rewrite Nat.add_0_r.
  - rewrite (IH k (S start) v H). do 2 f_equal. lia.
Qed.





(** ** What a call does to the store it finds *)

(** X8.  Whatever the arguments and however the call ends, the store it
    leaves is the store it found with at most one figure and at most one
    warning appended: figures and log records already there are neither
    changed nor removed.  A call that returns has added exactly one figure;
    a call that added none has failed. *)
Theorem X8_store_only_grows_by_one
    (mpl : Backend) (df : DataFrame) (column_name : string)
    (plot_kwargs : option Kwargs) (subplot_threshold : Z)
    (symbol_column datetime_column : string) (s : PltState) :
  exists r figs ws,
    plot_column mpl df column_name plot_kwargs subplot_threshold symbol_column
                datetime_column s
    = (r, extend s figs ws)
    /\ (List.length figs <= 1)%nat
    /\ (List.length ws <= 1)%nat
    /\ (r = inr tt -> List.length figs = 1%nat).
Proof.
  assert (plot_column mpl df column_name plot_kwargs subplot_threshold symbol_column
                      datetime_column s
          = (inl (ValueError missing_columns_message), s) ->
          exists r figs ws,
            plot_column mpl df column_name plot_kwargs subplot_threshold symbol_column
                        datetime_column s
            = (r, extend s figs ws)
            /\ (List.length figs <= 1)%nat /\ (List.length ws <= 1)%nat
            /\ (r = inr tt -> List.length figs = 1%nat)) as Hfail.
  { intro H. exists (inl (ValueError missing_columns_message)), [], [].
    rewrite extend_nothing. split; [exact H|]. simpl.
    repeat split; try lia. discriminate. }
  destruct (has_column datetime_column df) eqn:Hd.
  - destruct (getitem df symbol_column) as [g|] eqn:Hg.
    + destruct (proj1 (has_column_getitem df datetime_column) Hd) as [x Hx].
      do 3 eexists. split.
      * apply (plot_column_summary mpl df column_name plot_kwargs subplot_threshold
                 symbol_column datetime_column g x s Hg Hx).
      * unfold run_summary. cbv zeta.
        destruct (len (unique g) >? subplot_threshold), (unique g) as [|v l'],
          (getitem df column_name) as [y|],
          (has_key "label" (kwargs_or_empty plot_kwargs));
          repeat match goal with
                 | |- context [paint_until ?m ?g0 ?x0 ?y0 ?kw ?c ?k ?l ?axs] =>
                     destruct (paint_until m g0 x0 y0 kw c k l axs) as [[?|] ?]
                 | |- context [draw_until ?m ?g0 ?x0 ?y0 ?kw ?l ?a] =>
                     destruct (draw_until m g0 x0 y0 kw l a) as [[?|] ?]
                 end;
          cbn [fst snd List.length]; repeat split; try lia; try discriminate.
    + apply Hfail. apply plot_column_unchecked.
      right. now apply has_column_false.
  - apply Hfail. apply plot_column_unchecked. now left.
Qed.

(** ** Size of the grid *)



(** ** The series share out the rows *)

Lemma list_sum_zero {A : Type} (l : list A) : list_sum (map (fun _ => 0%nat) l) = 0%nat.
Proof. induction l; simpl; auto. Qed.

Lemma list_sum_plus {A : Type} (f h : A -> nat) (l : list A) :
  list_sum (map (fun a => (f a + h a)%nat) l)
  = (list_sum (map f l) + list_sum (map h l))%nat.
Proof. induction l as [|a l IH]; simpl; [reflexivity | rewrite IH; lia]. Qed.

Lemma hits_absent (c : Value) (l : list Value) :
  ~ In c l ->
  list_sum (map (fun v => if value_eqb c v then 1%nat else 0%nat) l) = 0%nat.
Proof.
  induction l as [|v l IH]; simpl; intro H; [reflexivity|].
  destruct (value_eqb c v) eqn:E.
  - apply value_eqb_eq in E. subst v. tauto.
  - apply IH. tauto.
Qed.

Lemma hits_once (c : Value) (l : list Value) :
  NoDup l -> In c l ->
  list_sum (map (fun v => if value_eqb c v then 1%nat else 0%nat) l) = 1%nat.
Proof.
  induction 1 as [|v l Hv Hnd IH]; simpl; intro Hin; [destruct Hin|].
  destruct (value_eqb c v) eqn:E.
  - apply value_eqb_eq in E. subst v. now rewrite hits_absent.
  - destruct Hin as [->|Hin]; [now rewrite value_eqb_refl in E | now apply IH].
Qed.

(** Rows counted symbol by symbol, over a duplicate-free list of symbols
    that misses none. *)
Lemma rows_by_symbol (g l : list Value) :
  NoDup l -> (forall c, In c g -> In c l) ->
  list_sum (map (fun v => List.length (filter (fun c => value_eqb c v) g)) l)
  = List.length g.
Proof.
  intros Hnd. induction g as [|c g IH]; intro Hall; simpl.
  - apply list_sum_zero.
  - rewrite (map_ext _ (fun v => ((if value_eqb c v then 1 else 0)
                                  + List.length (filter (fun c0 => value_eqb c0 v) g))%nat)).
    + rewrite list_sum_plus, hits_once, IH; auto.
      * intros c0 H0. apply Hall. now right.
      * apply Hall. now left.
    + intro v. now destruct (value_eqb c v).
Qed.



(** ** The series drawn before a failure *)

Lemma partial_grid_lines (g x y : list Value) (kw : Kwargs) (column_name : string)
    (fresh : nat -> Axes) (l : list Value) (m : nat) :
  (forall k, ax_lines (fresh k) = []) ->
  (List.length l <= m)%nat ->
  List.concat (map ax_lines (paint (panel_of g x y kw column_name) 0 l
                               (map fresh (seq 0 m))))
  = map (grid_line g x y kw) l.
Proof.
  intros Hfresh Hm.
  pose proof (paint_blank (panel_of g x y kw column_name) fresh l 0 m [] eq_refl Hm)
    as Hp.
  cbn [app Nat.add] in Hp. rewrite Hp, map_app, concat_app, !map_map.
  rewrite (map_ext (fun k => ax_lines (fresh k)) (fun _ => []) Hfresh).
  rewrite concat_nils, app_nil_r.
  rewrite (map_ext (fun p => ax_lines (panel_of g x y kw column_name (fst p)
                                         (fresh (snd p))))
                   (fun p => [grid_line g x y kw (fst p)])).
  - rewrite (map_combine_fst (fun v => [grid_line g x y kw v]))
      by now rewrite length_seq.
    rewrite <- (map_map (grid_line g x y kw) (fun ln => [ln])).
    apply concat_singletons.
  - intros [v k]. simpl. now rewrite Hfresh.
Qed.


